(** * Verification of the auto-open extension (extension.js and src/extension.ts)

    The repository holds two variants of the same VS Code extension:
    - [extension.js] (the "Open Changed Files" variant): path classifier
      [shouldOpenFile], debounce cache [recentChecks], burst window
      [recentFileChanges] and [handleFileChange];
    - [src/extension.ts] (the "Cursor Auto-Open" variant): path classifier
      [shouldAutoOpen], debounce map [lastCheckedFiles], package-manager
      suppression ([isPackageManagerRunning], [handlePackageManagerActivity]),
      the four event handlers and [openFile].

    Timestamps are [Date.now()] values (milliseconds, [Z]).  Paths are POSIX
    paths ([path.sep = "/"]).  Strings are ASCII strings; [toLowerCase] is
    modelled on ASCII letters. *)

From Stdlib Require Import String Ascii Bool ZArith List Lia.
From stdpp Require Import base gmap strings list.
Import ListNotations.

Open Scope Z_scope.

(* ------------------------------------------------------------------ *)
(** ** String helpers (JavaScript string methods and Node's [path]) *)

Module Str.

(** [String.prototype.toLowerCase] on ASCII letters. *)
Definition lower_char (c : ascii) : ascii :=
  let n := nat_of_ascii c in
  if (65 <=? n)%nat && (n <=? 90)%nat then ascii_of_nat (n + 32) else c.

Fixpoint toLowerCase (s : string) : string :=
  match s with
  | EmptyString => EmptyString
  | String c s' => String (lower_char c) (toLowerCase s')
  end.

(** [s.startsWith(p)] *)
Definition startsWith (p s : string) : bool := String.prefix p s.

(** [s.endsWith(p)] *)
Fixpoint endsWith (p s : string) : bool :=
  String.eqb p s ||
  match s with
  | EmptyString => false
  | String _ s' => endsWith p s'
  end.

(** [s.includes(p)] *)
Fixpoint includes (p s : string) : bool :=
  String.prefix p s ||
  match s with
  | EmptyString => false
  | String _ s' => includes p s'
  end.

(** [s.split(sep)] for a one-character separator: the pieces between the
    separators, empty pieces included (["/a"] splits to [""; "a"]). *)
Fixpoint split_acc (sep : ascii) (cur : list ascii) (l : list ascii)
  : list string :=
  match l with
  | [] => [string_of_list_ascii (rev cur)]
  | c :: l' =>
      if Ascii.eqb c sep
      then string_of_list_ascii (rev cur) :: split_acc sep [] l'
      else split_acc sep (c :: cur) l'
  end.

Definition split (sep : ascii) (s : string) : list string :=
  split_acc sep [] (list_ascii_of_string s).

(** [path.basename(p)] (POSIX): trailing separators are dropped, then the
    last piece is returned. *)
Fixpoint drop_slashes (rs : list ascii) : list ascii :=
  match rs with
  | c :: rs' => if Ascii.eqb c "/"%char then drop_slashes rs' else rs
  | [] => []
  end.

Fixpoint take_until_slash (rs : list ascii) : list ascii :=
  match rs with
  | c :: rs' => if Ascii.eqb c "/"%char then [] else c :: take_until_slash rs'
  | [] => []
  end.

Definition basename (p : string) : string :=
  string_of_list_ascii
    (rev (take_until_slash (drop_slashes (rev (list_ascii_of_string p))))).

(** Splits a reversed name at its last dot: the reversed extension body
    and the reversed part before the dot. *)
Fixpoint break_at_dot (rs : list ascii) : option (list ascii * list ascii) :=
  match rs with
  | [] => None
  | c :: rs' =>
      if Ascii.eqb c "."%char then Some ([], rs')
      else match break_at_dot rs' with
           | Some (e, pre) => Some (c :: e, pre)
           | None => None
           end
  end.

(** [path.extname(p)] (POSIX): from the last dot of the base name to its
    end; empty when the base name has no dot, when the last dot is its
    first character, and for the base name [".."]. *)
Definition extname (p : string) : string :=
  let b := basename p in
  match break_at_dot (rev (list_ascii_of_string b)) with
  | None => EmptyString
  | Some (_, []) => EmptyString
  | Some (e, _ :: _) =>
      if String.eqb b ".." then EmptyString
      else String "."%char (string_of_list_ascii (rev e))
  end.

Definition mem (s : string) (l : list string) : bool :=
  existsb (String.eqb s) l.

End Str.

(* ------------------------------------------------------------------ *)
(** ** extension.js: the path classifier *)

Module JsExt.

(** [IGNORED_DIRS] *)
Definition IGNORED_DIRS : list string :=
  ["node_modules"; "vendor"; ".git"; ".svn"; ".hg";
   ".cursor"; ".vscode"; "build"; "dist"; "out";
   ".next"; ".nuxt"; ".cache"; "coverage"; ".nyc_output"].

(** [ALLOWED_EXTS] *)
Definition ALLOWED_EXTS : list string :=
  [".js"; ".jsx"; ".ts"; ".tsx";
   ".mjs"; ".cjs"; ".cts"; ".mts";
   ".php"; ".phtml"; ".py"; ".rb"; ".go"; ".java"; ".cs"; ".kt"; ".kts"; ".rs";
   ".cpp"; ".cxx"; ".cc"; ".c"; ".h"; ".hpp"; ".hh";
   ".vue"; ".svelte"; ".astro"; ".mdx";
   ".html"; ".htm"; ".css"; ".scss"; ".sass"; ".less";
   ".json"; ".yml"; ".yaml"; ".xml"; ".md"; ".sql"; ".sh"; ".ps1"; ".bat"].

(** [shouldIgnorePath(fsPath)] *)
Definition shouldIgnorePath (fsPath : string) : bool :=
  existsb (fun segment => Str.mem (Str.toLowerCase segment) IGNORED_DIRS)
    (Str.split "/"%char fsPath).

(** [shouldOpenFile(fsPath)] *)
Definition shouldOpenFile (fsPath : string) : bool :=
  if shouldIgnorePath fsPath then false
  else
    let ext := Str.toLowerCase (Str.extname fsPath) in
    if Str.mem ext ALLOWED_EXTS then true else false.

End JsExt.

(* ------------------------------------------------------------------ *)
(** ** src/extension.ts: the path classifier *)

Module TsExt.

(** [ALLOWED_EXTENSIONS] *)
Definition ALLOWED_EXTENSIONS : list string :=
  [".php"; ".ts"; ".js"; ".jsx"; ".tsx"; ".vue";
   ".py"; ".rb"; ".go"; ".cs"; ".rs"; ".c"; ".cpp";
   ".css"; ".json";
   ".md"; ".mdx"; ".mdc"].

(** The regular expressions of [DISALLOWED_PATTERNS]: [/^name$/] matches
    exactly [name], [/\.ext$/] matches names ending in [.ext]. *)
Inductive pattern := Exact (s : string) | Suffix (s : string).

Definition pattern_test (pat : pattern) (fileName : string) : bool :=
  match pat with
  | Exact s => String.eqb s fileName
  | Suffix s => Str.endsWith s fileName
  end.

(** [DISALLOWED_PATTERNS] *)
Definition DISALLOWED_PATTERNS : list pattern :=
  [Exact "yarn.lock"; Exact "package-lock.json";
   Suffix ".env"; Suffix ".lock"; Suffix ".log"; Suffix ".sql"; Suffix ".txt"].

(** [EXCLUDED_DIRS] *)
Definition EXCLUDED_DIRS : list string :=
  ["vendor"; "node_modules"; ".git"; "build"; "dist"; "cache"; ".cache";
   "storage"; "bootstrap"].

(** [vscode.workspace.asRelativePath(uri, false)] for the single workspace
    folder [root]: the path below [root] when the file lies inside it,
    the path itself otherwise. *)
Definition asRelativePath (root fsPath : string) : string :=
  let pre := String.append root "/" in
  if String.prefix pre fsPath
  then String.substring (String.length pre)
         (String.length fsPath - String.length pre)%nat fsPath
  else fsPath.

(** [shouldAutoOpen(uri)], for a file [fsPath] of the workspace [root]. *)
Definition shouldAutoOpen (root fsPath : string) : bool :=
  let relativePath := asRelativePath root fsPath in
  if Str.includes "storage/framework/views" relativePath ||
     Str.includes "storage\framework\views" relativePath then false
  else if Str.startsWith "storage/" relativePath ||
          Str.startsWith "storage\" relativePath then false
  else if existsb (fun part => Str.mem (Str.toLowerCase part) EXCLUDED_DIRS)
            (Str.split "/"%char relativePath) then false
  else
    let fileName := Str.basename fsPath in
    if existsb (fun pat => pattern_test pat fileName) DISALLOWED_PATTERNS
    then false
    else
      let ext := Str.toLowerCase (Str.extname fsPath) in
      if negb (Str.mem ext ALLOWED_EXTENSIONS) then false
      else if String.eqb fileName "yarn.lock" ||
              String.eqb fileName "package-lock.json" then false
      else true.

End TsExt.


(* ------------------------------------------------------------------ *)
(** ** extension.js: debounce cache, burst window and [handleFileChange] *)

Module JsRun.
Import JsExt.

(** [CHECK_CACHE_TTL] and [BATCH_DETECTION_WINDOW] *)
Definition CHECK_CACHE_TTL : Z := 1000.
Definition BATCH_DETECTION_WINDOW : Z := 500.

(** The two maps that [activate] creates for its handler. *)
Record JsState := mkJsState {
  recentChecks : gmap string Z;
  recentFileChanges : gmap string Z
}.

Definition js_init : JsState := mkJsState ∅ ∅.

(** What the host tells the handler: the [fsPath] of the document of each
    visible editor, and the size in bytes of each existing file
    ([fs.statSync] throws for the others). *)
Record JsHost := mkJsHost {
  visibleTextEditors : list string;
  file_sizes : list (string * Z)
}.

(** [isFileOpenByUser(fsPath)] *)
Definition isFileOpenByUser (h : JsHost) (fsPath : string) : bool :=
  existsb (fun e => String.eqb e fsPath) (visibleTextEditors h).

(** [lastCheck && (now - lastCheck) < CHECK_CACHE_TTL]: a missing entry and
    the falsy timestamp 0 both let the event through. *)
Definition is_duplicate (m : gmap string Z) (fsPath : string) (now : Z) : bool :=
  match m !! fsPath with
  | Some lastCheck => negb (lastCheck =? 0) && (now - lastCheck <? CHECK_CACHE_TTL)
  | None => false
  end.

(** The purge loops of lines 111-129: when the map holds more than [limit]
    entries, every entry with [value < cutoff] is deleted. *)
Definition purge (limit : nat) (cutoff : Z) (m : gmap string Z) : gmap string Z :=
  if (limit <? size m)%nat then filter (fun kv => cutoff <= kv.2) m else m.

(** The debounce cache [recentChecks] as [handleFileChange] uses it
    (lines 101-106 and the purge of lines 111-119): [false] for a
    duplicate, which leaves the cache alone; otherwise the path is stamped
    with [now] and, above 100 entries, entries older than
    [CHECK_CACHE_TTL * 10] are dropped. *)
Definition recentChecks_call (m : gmap string Z) (fsPath : string) (now : Z)
  : bool * gmap string Z :=
  if is_duplicate m fsPath now then (false, m)
  else (true, purge 100 (now - CHECK_CACHE_TTL * 10) (<[fsPath := now]> m)).

(** [isLikelyBatchOperation()], with [now] the [Date.now()] read when it
    runs. *)
Definition recent_changes (m : gmap string Z) (now : Z) : list Z :=
  List.filter (fun timestamp => now - timestamp <? BATCH_DETECTION_WINDOW)
    (map snd (map_to_list m)).

Definition isLikelyBatchOperation (st : JsState) (now : Z) : bool :=
  (3 <=? length (recent_changes (recentFileChanges st) now))%nat.

(** Why the synchronous part of [handleFileChange] returned. *)
Inductive js_skip := SkipNotAllowed | SkipDuplicate | SkipOpenByUser.

Inductive js_phase := JsSkipped (r : js_skip) | JsWaiting.

(** [handleFileChange(uri)] up to its [await] of the batch window: the
    checks of lines 95-137 and the bookkeeping of lines 106-129.  On
    [JsWaiting] the handler resumes [BATCH_DETECTION_WINDOW] ms later with
    [js_resume]. *)
Definition handleFileChange_start (autoOpen : bool) (h : JsHost) (st : JsState)
    (now : Z) (fsPath : string) : JsState * js_phase :=
  if negb autoOpen || negb (shouldOpenFile fsPath) then (st, JsSkipped SkipNotAllowed)
  else
    let (fresh, rc) := recentChecks_call (recentChecks st) fsPath now in
    if negb fresh then (st, JsSkipped SkipDuplicate)
    else
    let rfc := <[fsPath := now]> (recentFileChanges st) in
    let rfc := purge 50 (now - BATCH_DETECTION_WINDOW * 2) rfc in
    let st' := mkJsState rc rfc in
    if isFileOpenByUser h fsPath then (st', JsSkipped SkipOpenByUser)
    else (st', JsWaiting).

(** How the resumed handler ends. *)
Inductive js_end :=
  | JsBatch            (** detected as batch operation, skipped *)
  | JsTooLarge         (** larger than 50 MB, skipped *)
  | JsStatFailed       (** [fs.statSync] threw, caught *)
  | JsOpened.          (** [openTextDocument] and [showTextDocument] called *)

Definition stat_size (h : JsHost) (fsPath : string) : option Z :=
  match List.find (fun fs => String.eqb fs.1 fsPath) (file_sizes h) with
  | Some (_, n) => Some n
  | None => None
  end.

(** The rest of [handleFileChange] (lines 143-177), run at time [now] after
    the wait; it reads the state but does not change it. *)
Definition js_resume (h : JsHost) (st : JsState) (now : Z) (fsPath : string) : js_end :=
  if isLikelyBatchOperation st now then JsBatch
  else match stat_size h fsPath with
       | None => JsStatFailed
       | Some n => if 50 * (1024 * 1024) <? n then JsTooLarge else JsOpened
       end.

(** Successive [handleFileChange] invocations for one path [fsPath]. *)
Fixpoint js_run_path (autoOpen : bool) (st : JsState) (fsPath : string)
    (evs : list (JsHost * Z)) : JsState :=
  match evs with
  | [] => st
  | (h, now) :: evs' =>
      js_run_path autoOpen (handleFileChange_start autoOpen h st now fsPath).1 fsPath evs'
  end.

End JsRun.
(* ------------------------------------------------------------------ *)
(** ** src/extension.ts: module state, host, [openFile] and the handlers *)

Module TsRun.
Import TsExt.

(** The module-level variables of extension.ts together with the closure
    variable [activityStartTime] of [activate].  [packageManagerCooldown]
    is the expiry time of the cooldown timer that is still scheduled, if
    any: [clearTimeout] unschedules it and a fired timer is no longer
    pending. *)
Record TsState := mkTsState {
  isPackageManagerRunning : bool;
  activityStartTime : Z;
  packageManagerCooldown : option Z;
  lastCheckedFiles : gmap string Z;
  openedFiles : gset string;
  autoOpenedFiles : gset string;
  documentModificationTimes : gmap string Z
}.

Definition ts_init : TsState := mkTsState false 0 None ∅ ∅ ∅ ∅.

(** A document URI: its scheme and [fsPath]. *)
Record Doc := mkDoc { scheme : string; fsPath : string }.

(** The host calls of [openFile] that open or reveal a document. *)
Inductive ApiCall :=
  | ShowTextDocumentDoc (p : string)      (** [showTextDocument(doc, ...)] *)
  | ExecuteOpen (p : string)              (** [executeCommand('vscode.open', ...)] *)
  | ShowTextDocumentUri (p : string)      (** [showTextDocument(uri, ...)] *)
  | ShowTextDocumentUriRetry (p : string) (** the retry after the false 50MB error *)
  | OpenTextDocument (p : string).        (** last resort: [openTextDocument] then show *)

(** The editor and the file system as the extension sees them: the
    workspace folder, the documents of the visible editors, the open text
    documents, the size of each existing file, and the outcome of each
    host call ([None]: success, [Some msg]: it threw [msg]). *)
Record TsHost := mkTsHost {
  root : string;
  visibleTextEditors : list Doc;
  textDocuments : list Doc;
  files : list (string * Z);
  api : ApiCall -> option string
}.

Definition file_size (h : TsHost) (p : string) : option Z :=
  match List.find (fun f => String.eqb f.1 p) (files h) with
  | Some (_, n) => Some n
  | None => None
  end.

(** [visibleEditors.some(editor => editor.document.uri.fsPath === filePath)] *)
Definition isVisible (h : TsHost) (filePath : string) : bool :=
  existsb (fun d => String.eqb (fsPath d) filePath) (visibleTextEditors h).

Definition mark_opened (st : TsState) (filePath : string) : TsState :=
  mkTsState (isPackageManagerRunning st) (activityStartTime st)
    (packageManagerCooldown st) (lastCheckedFiles st)
    ({[filePath]} ∪ openedFiles st) ({[filePath]} ∪ autoOpenedFiles st)
    (documentModificationTimes st).

Definition ok (h : TsHost) (c : ApiCall) : bool :=
  match api h c with None => true | Some _ => false end.

(** The not-yet-open branch of [openFile] (lines 450-515): the command,
    then [showTextDocument] with one retry on the false 50MB error, then
    [openTextDocument].  Returns the calls made and whether one succeeded. *)
Definition open_ladder (h : TsHost) (filePath : string) : list ApiCall * bool :=
  let c1 := ExecuteOpen filePath in
  if ok h c1 then ([c1], true) else
  let c2 := ShowTextDocumentUri filePath in
  if ok h c2 then ([c1; c2], true) else
  let errorMessage := match api h c2 with Some m => m | None => EmptyString end in
  let retried :=
    if Str.includes "50MB" errorMessage || Str.includes "synchronized" errorMessage
    then let c3 := ShowTextDocumentUriRetry filePath in
         if ok h c3 then Some ([c1; c2; c3], true) else Some ([c1; c2; c3], false)
    else None in
  match retried with
  | Some (calls, true) => (calls, true)
  | Some (calls, false) =>
      let c4 := OpenTextDocument filePath in (calls ++ [c4], ok h c4)
  | None =>
      let c4 := OpenTextDocument filePath in ([c1; c2; c4], ok h c4)
  end.

(** [openFile(uri)].  The host snapshot [h] is the one seen by its checks;
    the result is the new state and the host calls made, in order. *)
Definition openFile (h : TsHost) (st : TsState) (filePath : string)
  : TsState * list ApiCall :=
  match file_size h filePath with
  | None => (st, [])                                   (* access failed *)
  | Some size =>
    if 50 * (1024 * 1024) <? size then (st, [])        (* too large *)
    else
    match List.find (fun d => String.eqb (fsPath d) filePath && String.eqb (scheme d) "file")
            (textDocuments h) with
    | Some _ =>
        if isVisible h filePath then (mark_opened st filePath, [])
        else
          let c := ShowTextDocumentDoc filePath in
          if ok h c then (mark_opened st filePath, [c])
          else (mark_opened st filePath, [c; ExecuteOpen filePath])
    | None =>
        let (calls, success) := open_ladder h filePath in
        if success then (mark_opened st filePath, calls) else (st, calls)
    end
  end.

(** [handlePackageManagerActivity(source)] at time [now]: the first
    activity records [activityStartTime]; every activity clears the pending
    cooldown timer and schedules a new one 30000 ms later. *)
Definition COOLDOWN : Z := 30000.

Definition handlePackageManagerActivity (st : TsState) (now : Z) : TsState :=
  let start := if isPackageManagerRunning st then activityStartTime st else now in
  mkTsState true start (Some (now + COOLDOWN)) (lastCheckedFiles st)
    (openedFiles st) (autoOpenedFiles st) (documentModificationTimes st).

(** The callback of the cooldown timer. *)
Definition cooldown_fires (st : TsState) : TsState :=
  mkTsState false (activityStartTime st) None (lastCheckedFiles st)
    (openedFiles st) (autoOpenedFiles st) (documentModificationTimes st).

(** How a handler invocation ends its synchronous part. *)
Inductive ts_skip :=
  | SkipSuppressed          (** package manager is running *)
  | SkipStorage             (** external change below [storage/] *)
  | SkipCriteria            (** [shouldAutoOpen] (or the scheme) rejects *)
  | SkipDebounced           (** changed less than 2 s ago *)
  | SkipVisibleOrAutoOpened.

Inductive ts_phase :=
  | TsSkipped (r : ts_skip)
  | TsWaiting (delay : Z)            (** resumes with [openFile] after [delay] ms *)
  | TsCalled (calls : list ApiCall). (** [openFile] ran at once *)

(** [fileWatcher.onDidCreate] *)
Definition onDidCreate (h : TsHost) (st : TsState) (filePath : string)
  : TsState * ts_phase :=
  if isPackageManagerRunning st then (st, TsSkipped SkipSuppressed)
  else if shouldAutoOpen (root h) filePath
  then let (st', calls) := openFile h st filePath in (st', TsCalled calls)
  else (st, TsSkipped SkipCriteria).

(** The debounce of [fileWatcher.onDidChange] (lines 213-222):
    [lastCheckedFiles.get(filePath) || 0], a 2000 ms window, and no purge. *)
Definition DEBOUNCE_MS : Z := 2000.

Definition lastCheckedFiles_call (m : gmap string Z) (filePath : string) (now : Z)
  : bool * gmap string Z :=
  let lastChecked := match m !! filePath with Some v => v | None => 0 end in
  if now - lastChecked <? DEBOUNCE_MS then (false, m)
  else (true, <[filePath := now]> m).

(** [fileWatcher.onDidChange] up to its 200 ms wait. *)
Definition onDidChange_start (h : TsHost) (st : TsState) (now : Z) (filePath : string)
  : TsState * ts_phase :=
  let relativePath := asRelativePath (root h) filePath in
  if isPackageManagerRunning st then (st, TsSkipped SkipSuppressed)
  else if Str.includes "storage/" relativePath || Str.includes "storage\" relativePath
  then (st, TsSkipped SkipStorage)
  else if shouldAutoOpen (root h) filePath then
    let (fresh, m) := lastCheckedFiles_call (lastCheckedFiles st) filePath now in
    if negb fresh then (st, TsSkipped SkipDebounced)
    else (mkTsState (isPackageManagerRunning st) (activityStartTime st)
            (packageManagerCooldown st) m
            (openedFiles st) (autoOpenedFiles st) (documentModificationTimes st),
          TsWaiting 200)
  else (st, TsSkipped SkipCriteria).

Definition set_modtime (st : TsState) (filePath : string) (now : Z) : TsState :=
  mkTsState (isPackageManagerRunning st) (activityStartTime st)
    (packageManagerCooldown st) (lastCheckedFiles st)
    (openedFiles st) (autoOpenedFiles st)
    (<[filePath := now]> (documentModificationTimes st)).

(** [onDidChangeTextDocument] up to its 100 ms wait. *)
Definition onDidChangeTextDocument_start (h : TsHost) (st : TsState) (now : Z) (d : Doc)
  : TsState * ts_phase :=
  if isPackageManagerRunning st then (st, TsSkipped SkipSuppressed)
  else if String.eqb (scheme d) "file" && shouldAutoOpen (root h) (fsPath d) then
    let filePath := fsPath d in
    if negb (isVisible h filePath) && negb (bool_decide (filePath ∈ autoOpenedFiles st))
    then (set_modtime st filePath now, TsWaiting 100)
    else (st, TsSkipped SkipVisibleOrAutoOpened)
  else (st, TsSkipped SkipCriteria).

(** [onDidSaveTextDocument] up to its 100 ms wait. *)
Definition onDidSaveTextDocument_start (h : TsHost) (st : TsState) (now : Z) (d : Doc)
  : TsState * ts_phase :=
  if isPackageManagerRunning st then (st, TsSkipped SkipSuppressed)
  else if String.eqb (scheme d) "file" && shouldAutoOpen (root h) (fsPath d) then
    let filePath := fsPath d in
    let st' := set_modtime st filePath now in
    if negb (isVisible h filePath) && negb (bool_decide (filePath ∈ autoOpenedFiles st))
    then (st', TsWaiting 100)
    else (st', TsSkipped SkipVisibleOrAutoOpened)
  else (st, TsSkipped SkipCriteria).

(** [onDidOpenTextDocument] *)
Definition onDidOpenTextDocument (st : TsState) (now : Z) (d : Doc) : TsState :=
  if String.eqb (scheme d) "file" then set_modtime st (fsPath d) now else st.

(** [onDidChangeActiveTextEditor] with an editor on [d]. *)
Definition onDidChangeActiveTextEditor (st : TsState) (d : Doc) : TsState :=
  mkTsState (isPackageManagerRunning st) (activityStartTime st)
    (packageManagerCooldown st) (lastCheckedFiles st)
    ({[fsPath d]} ∪ openedFiles st) (autoOpenedFiles st) (documentModificationTimes st).

(** [onDidCloseTextDocument] *)
Definition onDidCloseTextDocument (st : TsState) (d : Doc) : TsState :=
  mkTsState (isPackageManagerRunning st) (activityStartTime st)
    (packageManagerCooldown st) (lastCheckedFiles st)
    (openedFiles st ∖ {[fsPath d]}) (autoOpenedFiles st) (documentModificationTimes st).

(** [deactivate()] *)
Definition deactivate (st : TsState) : TsState :=
  mkTsState (isPackageManagerRunning st) (activityStartTime st)
    (packageManagerCooldown st) (lastCheckedFiles st)
    ∅ ∅ (documentModificationTimes st).

(** Everything that can run on the extension host's event loop: a handler
    invocation, the resumption of a waiting handler (which calls
    [openFile]), an early-indicator event, the cooldown timer, deactivation. *)
Inductive ts_event :=
  | EvCreate (p : string)
  | EvChange (p : string)
  | EvTextChange (d : Doc)
  | EvSave (d : Doc)
  | EvResume (p : string)
  | EvOpenDocument (d : Doc)
  | EvActiveEditor (d : Doc)
  | EvCloseDocument (d : Doc)
  | EvIndicator
  | EvCooldownFires
  | EvDeactivate.

(** One event at time [now] with host snapshot [h]. *)
Definition ts_step (h : TsHost) (now : Z) (st : TsState) (ev : ts_event)
  : TsState * ts_phase :=
  match ev with
  | EvCreate p => onDidCreate h st p
  | EvChange p => onDidChange_start h st now p
  | EvTextChange d => onDidChangeTextDocument_start h st now d
  | EvSave d => onDidSaveTextDocument_start h st now d
  | EvResume p => let (st', calls) := openFile h st p in (st', TsCalled calls)
  | EvOpenDocument d => (onDidOpenTextDocument st now d, TsCalled [])
  | EvActiveEditor d => (onDidChangeActiveTextEditor st d, TsCalled [])
  | EvCloseDocument d => (onDidCloseTextDocument st d, TsCalled [])
  | EvIndicator => (handlePackageManagerActivity st now, TsCalled [])
  | EvCooldownFires => (cooldown_fires st, TsCalled [])
  | EvDeactivate => (deactivate st, TsCalled [])
  end.

(** A run: each event comes with its time and host snapshot. *)
Fixpoint ts_run (st : TsState) (evs : list (TsHost * Z * ts_event)) : TsState :=
  match evs with
  | [] => st
  | (h, now, ev) :: evs' => ts_run (ts_step h now st ev).1 evs'
  end.

(** The state with the suppression flag set to [b] (used to compare runs
    that differ only in it). *)
Definition with_running (st : TsState) (b : bool) : TsState :=
  mkTsState b (activityStartTime st) (packageManagerCooldown st)
    (lastCheckedFiles st) (openedFiles st) (autoOpenedFiles st)
    (documentModificationTimes st).

(** When an event can really occur: the cooldown timer fires only while
    it is scheduled, at its expiry time. *)
Definition ts_event_ok (st : TsState) (now : Z) (ev : ts_event) : Prop :=
  match ev with
  | EvCooldownFires => packageManagerCooldown st = Some now
  | _ => True
  end.

(** The outcome of each event of a run, in order. *)
Fixpoint ts_trace (st : TsState) (evs : list (TsHost * Z * ts_event)) : list ts_phase :=
  match evs with
  | [] => []
  | (h, now, ev) :: evs' =>
      let r := ts_step h now st ev in r.2 :: ts_trace r.1 evs'
  end.

(** The state with [autoOpenedFiles] replaced by [s]. *)
Definition with_autoOpened (st : TsState) (s : gset string) : TsState :=
  mkTsState (isPackageManagerRunning st) (activityStartTime st)
    (packageManagerCooldown st) (lastCheckedFiles st) (openedFiles st) s
    (documentModificationTimes st).

(** The fields that some check of extension.ts reads: the suppression
    flag, the pending cooldown, [lastCheckedFiles] and [autoOpenedFiles].
    Two states agreeing on them differ at most in [activityStartTime],
    [openedFiles] and [documentModificationTimes]. *)
Definition same_read_fields (st1 st2 : TsState) : Prop :=
  isPackageManagerRunning st1 = isPackageManagerRunning st2 /\
  packageManagerCooldown st1 = packageManagerCooldown st2 /\
  lastCheckedFiles st1 = lastCheckedFiles st2 /\
  autoOpenedFiles st1 = autoOpenedFiles st2.

End TsRun.

(* ------------------------------------------------------------------ *)
(** ** extension.js, lines 193-584: an earlier copy of extension.ts

    The second half of extension.js is an older version of
    src/extension.ts: no package-manager suppression, no Laravel storage
    checks, a shorter [EXCLUDED_DIRS] and a 1000 ms debounce.  Its
    [openFile] (lines 431-571) is the same as the later one, so
    [TsRun.openFile] models both. *)

Module TsV1.
Import TsExt TsRun.

(** [EXCLUDED_DIRS] (lines 223-231) *)
Definition EXCLUDED_DIRS : list string :=
  ["vendor"; "node_modules"; ".git"; "build"; "dist"; "cache"; ".cache"].

(** [shouldAutoOpen(uri)] (lines 396-429) *)
Definition shouldAutoOpen (root fsPath : string) : bool :=
  let relativePath := asRelativePath root fsPath in
  if existsb (fun part => Str.mem (Str.toLowerCase part) EXCLUDED_DIRS)
       (Str.split "/"%char relativePath) then false
  else
    let fileName := Str.basename fsPath in
    if existsb (fun pat => pattern_test pat fileName) DISALLOWED_PATTERNS
    then false
    else
      let ext := Str.toLowerCase (Str.extname fsPath) in
      if negb (Str.mem ext ALLOWED_EXTENSIONS) then false
      else if String.eqb fileName "yarn.lock" ||
              String.eqb fileName "package-lock.json" then false
      else true.

(** The debounce of its [onDidChange] handler: a 1000 ms window. *)
Definition lastCheckedFiles_call (m : gmap string Z) (filePath : string) (now : Z)
  : bool * gmap string Z :=
  let lastChecked := match m !! filePath with Some v => v | None => 0 end in
  if now - lastChecked <? 1000 then (false, m)
  else (true, <[filePath := now]> m).

(** Its [fileWatcher.onDidChange] (lines 288-309) up to the 200 ms wait;
    the handler reads and writes only [lastCheckedFiles]. *)
Definition onDidChange_start (h : TsHost) (lastCheckedFiles : gmap string Z)
    (now : Z) (filePath : string) : gmap string Z * ts_phase :=
  if shouldAutoOpen (root h) filePath then
    let (fresh, m) := lastCheckedFiles_call lastCheckedFiles filePath now in
    if negb fresh then (lastCheckedFiles, TsSkipped SkipDebounced)
    else (m, TsWaiting 200)
  else (lastCheckedFiles, TsSkipped SkipCriteria).

End TsV1.

(* ------------------------------------------------------------------ *)
(** ** Concrete scenarios *)

Module Scenario.
Import JsRun.

(** A [Date.now()] value. *)
Definition T : Z := 1700000000000.

(** Three small source files, none of them in a visible editor. *)
Definition js_host : JsHost :=
  mkJsHost [] [("/w/a.js", 120); ("/w/b.js", 80); ("/w/c.js", 64)].

(** A burst: a.js, b.js and c.js change at [T], [T+100] and [T+200]. *)
Definition burst1 : JsState * js_phase := handleFileChange_start true js_host js_init T "/w/a.js".
Definition burst2 : JsState * js_phase := handleFileChange_start true js_host burst1.1 (T + 100) "/w/b.js".
Definition burst3 : JsState * js_phase := handleFileChange_start true js_host burst2.1 (T + 200) "/w/c.js".

(** A debounce map of 101 paths last seen at time 1. *)
Definition old_ledger : gmap string Z :=
  list_to_map (map (fun n => (String (ascii_of_nat n) EmptyString, 1)) (seq 0 101)).

(** A workspace "/w" whose file src/a.ts exists (100 bytes), is not
    loaded in any editor, and opens without error. *)
Definition ts_host : TsRun.TsHost :=
  TsRun.mkTsHost "/w" [] [] [("/w/src/a.ts", 100)] (fun _ => None).

(** The same workspace with src/a.ts loaded and shown in a visible editor. *)
Definition ts_host_visible : TsRun.TsHost :=
  TsRun.mkTsHost "/w" [TsRun.mkDoc "file" "/w/src/a.ts"] [TsRun.mkDoc "file" "/w/src/a.ts"]
    [("/w/src/a.ts", 100)] (fun _ => None).

Definition a_ts : TsRun.Doc := TsRun.mkDoc "file" "/w/src/a.ts".

End Scenario.

(* ================================================================== *)
(** * Properties *)

(** ** Helper lemmas *)

Lemma length_filter_le {A} (f : A -> bool) (l : list A) :
  (length (List.filter f l) <= length l)%nat.
Proof. induction l as [|x l IH]; simpl; [lia|]. destruct (f x); simpl; lia. Qed.

Lemma length_filter_perm {A} (f : A -> bool) (l l' : list A) :
  Permutation l l' -> length (List.filter f l) = length (List.filter f l').
Proof.
  induction 1 as [|x l l' _ IH|x y l|l l' l'' _ IH1 _ IH2]; simpl.
  - reflexivity.
  - destruct (f x); simpl; congruence.
  - destruct (f x), (f y); reflexivity.
  - congruence.
Qed.

Lemma recent_changes_size (m : gmap string Z) now :
  (length (JsRun.recent_changes m now) <= size m)%nat.
Proof.
  unfold JsRun.recent_changes. etrans; [apply length_filter_le|].
  rewrite length_map, length_map_to_list. lia.
Qed.

Lemma size_le_1_of_keys (m : gmap string Z) (p : string) :
  (forall k, is_Some (m !! k) -> k = p) -> (size m <= 1)%nat.
Proof.
  intros Hk. rewrite <- (size_dom m).
  assert (dom m ⊆ {[p]}) as Hsub.
  { intros k Hin. apply elem_of_dom in Hin. apply Hk in Hin. set_solver. }
  apply subseteq_size in Hsub. rewrite size_singleton in Hsub. exact Hsub.
Qed.

Lemma purge_lookup_Some limit cutoff (m : gmap string Z) k v :
  JsRun.purge limit cutoff m !! k = Some v -> m !! k = Some v.
Proof.
  unfold JsRun.purge. destruct (_ <? _)%nat; [|done].
  rewrite map_lookup_filter_Some. tauto.
Qed.

(** The entry of an event stamped [t] no longer counts [BATCH_DETECTION_WINDOW]
    ms later. *)
Lemma own_entry_not_counted (m : gmap string Z) p t now :
  m !! p = Some t -> t + JsRun.BATCH_DETECTION_WINDOW <= now ->
  length (JsRun.recent_changes m now) = length (JsRun.recent_changes (delete p m) now).
Proof.
  intros Hp Hle. unfold JsRun.recent_changes.
  rewrite <- (insert_delete_id m p t Hp) at 1.
  rewrite (length_filter_perm _ _ _
             (Permutation_map snd (map_to_list_insert _ _ _ (lookup_delete_eq m p)))).
  simpl. unfold JsRun.BATCH_DETECTION_WINDOW in *.
  destruct (now - t <? 500) eqn:E; [lia|reflexivity].
Qed.

(** ** C1: burst suppression (extension.js) *)

(** C1 (code_bug).  Three allow-listed files change 100 ms apart, well
    inside one 500 ms batch window.  Each handler waits
    [BATCH_DETECTION_WINDOW] ms before calling [isLikelyBatchOperation],
    whose filter [(now - timestamp) < 500] then excludes the event's own
    entry and every earlier one: the counts seen at [T+500], [T+600] and
    [T+700] are 2, 1 and 0, no member is classified as a batch, and all
    three are opened. *)
Lemma js_burst_members_all_open :
  Scenario.burst1.2 = JsRun.JsWaiting /\
  Scenario.burst2.2 = JsRun.JsWaiting /\
  Scenario.burst3.2 = JsRun.JsWaiting /\
  length (JsRun.recent_changes (JsRun.recentFileChanges Scenario.burst3.1) (Scenario.T + 500)) = 2%nat /\
  JsRun.isLikelyBatchOperation Scenario.burst3.1 (Scenario.T + 500) = false /\
  JsRun.js_resume Scenario.js_host Scenario.burst3.1 (Scenario.T + 500) "/w/a.js" = JsRun.JsOpened /\
  JsRun.js_resume Scenario.js_host Scenario.burst3.1 (Scenario.T + 600) "/w/b.js" = JsRun.JsOpened /\
  JsRun.js_resume Scenario.js_host Scenario.burst3.1 (Scenario.T + 700) "/w/c.js" = JsRun.JsOpened.
Proof. vm_compute. repeat split. Qed.

(** ** C9: one timestamp per path in the burst window (extension.js) *)

(** C9.  [recentFileChanges] is keyed by path: restamping a path replaces
    its entry, so the path adds at most one to the count of
    [isLikelyBatchOperation]; and however many times a single path
    changes, from a window holding no other path, the batch verdict stays
    [false] at every time. *)
Theorem js_single_path_counts_once :
  (forall (m : gmap string Z) p t now,
     (length (JsRun.recent_changes (<[p := t]> m) now)
      <= length (JsRun.recent_changes (delete p m) now) + 1)%nat) /\
  (forall autoOpen st p evs now,
     (forall k, is_Some (JsRun.recentFileChanges st !! k) -> k = p) ->
     JsRun.isLikelyBatchOperation (JsRun.js_run_path autoOpen st p evs) now = false).
Proof.
  split.
  - intros m p t now. unfold JsRun.recent_changes.
    rewrite <- insert_delete_eq.
    rewrite (length_filter_perm _ _ _
               (Permutation_map snd (map_to_list_insert _ _ _ (lookup_delete_eq m p)))).
    simpl. destruct (_ <? _); simpl; lia.
  - intros autoOpen st p evs now Hk.
    assert (Hinv : forall k, is_Some (JsRun.recentFileChanges (JsRun.js_run_path autoOpen st p evs) !! k) -> k = p).
    { revert st Hk. induction evs as [|[h t] evs IH]; intros st Hk; simpl; [exact Hk|].
      apply IH. unfold JsRun.handleFileChange_start.
      destruct (negb autoOpen || negb (JsExt.shouldOpenFile p)); [exact Hk|].
      destruct (JsRun.recentChecks_call _ _ _) as [[] rc]; simpl; [|exact Hk].
      destruct (JsRun.isFileOpenByUser h p); simpl;
        intros k [v Hv]; apply purge_lookup_Some in Hv;
        apply lookup_insert_Some in Hv as [[-> _]|[_ Hv]]; eauto. }
    apply size_le_1_of_keys in Hinv.
    pose proof (recent_changes_size (JsRun.recentFileChanges (JsRun.js_run_path autoOpen st p evs)) now).
    unfold JsRun.isLikelyBatchOperation. apply Nat.leb_gt. lia.
Qed.

(** Witness of [js_single_path_counts_once]: a.js changing three times in
    30 ms never makes a batch. *)
Lemma js_single_path_counts_once_witness :
  JsRun.isLikelyBatchOperation
    (JsRun.js_run_path true JsRun.js_init "/w/a.js"
       [(Scenario.js_host, Scenario.T); (Scenario.js_host, Scenario.T + 10);
        (Scenario.js_host, Scenario.T + 20)]) (Scenario.T + 30) = false.
Proof.
  apply (proj2 js_single_path_counts_once).
  intros k [v Hv]. simpl in Hv. rewrite lookup_empty in Hv. discriminate.
Defined.

(** ** C6: debounce idempotence *)

(** C6.  For both debounce ledgers ([recentChecks] of extension.js, TTL
    1000 ms; [lastCheckedFiles] of extension.ts, TTL 2000 ms): when the
    path has no entry younger than the TTL, a call at [t] answers [true]
    and records [t]; a call at [t'] with [t' - t < TTL] answers [false]
    and leaves the ledger unchanged; a call at [t''] with [t'' - t >= TTL]
    answers [true] again.  [t] is a [Date.now()] value, so [t >= TTL]. *)
Theorem debounce_idempotent :
  (forall (m : gmap string Z) p t t' t'',
     JsRun.CHECK_CACHE_TTL <= t ->
     (forall v, m !! p = Some v -> JsRun.CHECK_CACHE_TTL <= t - v) ->
     t' - t < JsRun.CHECK_CACHE_TTL -> JsRun.CHECK_CACHE_TTL <= t'' - t ->
     let r1 := JsRun.recentChecks_call m p t in
     let r2 := JsRun.recentChecks_call r1.2 p t' in
     r1.1 = true /\ r1.2 !! p = Some t /\ r2.1 = false /\ r2.2 = r1.2 /\
     (JsRun.recentChecks_call r2.2 p t'').1 = true) /\
  (forall (m : gmap string Z) p t t' t'',
     TsRun.DEBOUNCE_MS <= t ->
     (forall v, m !! p = Some v -> TsRun.DEBOUNCE_MS <= t - v) ->
     t' - t < TsRun.DEBOUNCE_MS -> TsRun.DEBOUNCE_MS <= t'' - t ->
     let r1 := TsRun.lastCheckedFiles_call m p t in
     let r2 := TsRun.lastCheckedFiles_call r1.2 p t' in
     r1.1 = true /\ r1.2 !! p = Some t /\ r2.1 = false /\ r2.2 = r1.2 /\
     (TsRun.lastCheckedFiles_call r2.2 p t'').1 = true).
Proof.
  split.
  - intros m p t t' t'' Ht Hold Ht' Ht''. simpl.
    unfold JsRun.CHECK_CACHE_TTL in *.
    assert (Hd : JsRun.is_duplicate m p t = false).
    { unfold JsRun.is_duplicate. destruct (m !! p) as [v|] eqn:E; [|done].
      specialize (Hold v eq_refl). unfold JsRun.CHECK_CACHE_TTL.
      destruct (v =? 0); simpl; [done|]. apply Z.ltb_ge. lia. }
    assert (Hp : JsRun.purge 100 (t - 1000 * 10) (<[p:=t]> m) !! p = Some t).
    { unfold JsRun.purge. destruct (_ <? _)%nat.
      - apply map_lookup_filter_Some. rewrite lookup_insert_eq. simpl. split; [done|lia].
      - apply lookup_insert_eq. }
    unfold JsRun.recentChecks_call. rewrite Hd. simpl. unfold JsRun.CHECK_CACHE_TTL.
    assert (Hd2 : JsRun.is_duplicate (JsRun.purge 100 (t - 1000 * 10) (<[p:=t]> m)) p t' = true).
    { unfold JsRun.is_duplicate. rewrite Hp. unfold JsRun.CHECK_CACHE_TTL.
      apply andb_true_intro. split; [apply negb_true_iff, Z.eqb_neq; lia|apply Z.ltb_lt; lia]. }
    rewrite Hd2. simpl. repeat split; try done.
    unfold JsRun.is_duplicate. rewrite Hp. unfold JsRun.CHECK_CACHE_TTL.
    replace (t'' - t <? 1000) with false by (symmetry; apply Z.ltb_ge; lia).
    rewrite andb_false_r. reflexivity.
  - intros m p t t' t'' Ht Hold Ht' Ht''. simpl.
    unfold TsRun.DEBOUNCE_MS in *. unfold TsRun.lastCheckedFiles_call, TsRun.DEBOUNCE_MS.
    assert (Hf : (t - match m !! p with Some v => v | None => 0 end <? 2000) = false).
    { apply Z.ltb_ge. destruct (m !! p) as [v|]; [specialize (Hold v eq_refl)|]; lia. }
    rewrite Hf. simpl. rewrite lookup_insert_eq.
    assert (H1 : (t' - t <? 2000) = true) by (apply Z.ltb_lt; lia).
    assert (H2 : (t'' - t <? 2000) = false) by (apply Z.ltb_ge; lia).
    rewrite H1. simpl. rewrite lookup_insert_eq, H2. repeat split.
Qed.

(** Witness of [debounce_idempotent]: /w/a.ts seen at [T], again 500 ms
    later, then 2500 ms later, from empty ledgers. *)
Lemma debounce_idempotent_witness :
  (let r1 := JsRun.recentChecks_call ∅ "/w/a.ts" Scenario.T in
   let r2 := JsRun.recentChecks_call r1.2 "/w/a.ts" (Scenario.T + 500) in
   r1.1 = true /\ r1.2 !! "/w/a.ts" = Some Scenario.T /\ r2.1 = false /\ r2.2 = r1.2 /\
   (JsRun.recentChecks_call r2.2 "/w/a.ts" (Scenario.T + 2500)).1 = true) /\
  (let r1 := TsRun.lastCheckedFiles_call ∅ "/w/a.ts" Scenario.T in
   let r2 := TsRun.lastCheckedFiles_call r1.2 "/w/a.ts" (Scenario.T + 500) in
   r1.1 = true /\ r1.2 !! "/w/a.ts" = Some Scenario.T /\ r2.1 = false /\ r2.2 = r1.2 /\
   (TsRun.lastCheckedFiles_call r2.2 "/w/a.ts" (Scenario.T + 2500)).1 = true).
Proof.
  split.
  - apply (proj1 debounce_idempotent); unfold JsRun.CHECK_CACHE_TTL, Scenario.T;
      [lia| |lia|lia]. intros v Hv. rewrite lookup_empty in Hv. discriminate.
  - apply (proj2 debounce_idempotent); unfold TsRun.DEBOUNCE_MS, Scenario.T;
      [lia| |lia|lia]. intros v Hv. rewrite lookup_empty in Hv. discriminate.
Defined.

(** ** C7: debounce purge *)

(** C7 (as amended).  The purge exists in extension.js only: an accepting
    call of [recentChecks] whose map, after stamping the path, holds more
    than 100 entries keeps no entry older than [CHECK_CACHE_TTL * 10], and
    with at most 100 entries it purges nothing.  The [lastCheckedFiles] map
    of extension.ts is never purged: an accepting call keeps every other
    entry as it was. *)
Theorem debounce_purge :
  (forall (m : gmap string Z) p now,
     (JsRun.recentChecks_call m p now).1 = true ->
     ((100 < size (<[p := now]> m))%nat ->
      forall k v, (JsRun.recentChecks_call m p now).2 !! k = Some v ->
      now - v <= JsRun.CHECK_CACHE_TTL * 10) /\
     ((size (<[p := now]> m) <= 100)%nat ->
      (JsRun.recentChecks_call m p now).2 = <[p := now]> m)) /\
  (forall (m : gmap string Z) p now,
     (TsRun.lastCheckedFiles_call m p now).1 = true ->
     forall k, k <> p -> (TsRun.lastCheckedFiles_call m p now).2 !! k = m !! k).
Proof.
  split.
  - intros m p now. unfold JsRun.recentChecks_call.
    destruct (JsRun.is_duplicate m p now); simpl; [discriminate|]. intros _.
    unfold JsRun.purge. split.
    + intros Hsz k v. apply Nat.ltb_lt in Hsz. rewrite Hsz.
      rewrite map_lookup_filter_Some. simpl. lia.
    + intros Hsz. replace (100 <? size (<[p:=now]> m))%nat with false; [done|].
      symmetry. apply Nat.ltb_ge. exact Hsz.
  - intros m p now. unfold TsRun.lastCheckedFiles_call.
    destruct (_ <? _); simpl; [discriminate|]. intros _ k Hk.
    apply lookup_insert_ne. congruence.
Qed.

(** Witness of [debounce_purge]: the 101 stale entries of
    [Scenario.old_ledger] plus a.js exceed the limit in extension.js; in
    extension.ts the stale entry of key "A" survives. *)
Lemma debounce_purge_witness :
  (forall k v,
     (JsRun.recentChecks_call Scenario.old_ledger "/w/a.js" 100000).2 !! k = Some v ->
     100000 - v <= JsRun.CHECK_CACHE_TTL * 10) /\
  (TsRun.lastCheckedFiles_call Scenario.old_ledger "/w/a.ts" 100000).2 !! "A" =
    Scenario.old_ledger !! "A".
Proof.
  split.
  - apply (proj1 ((proj1 debounce_purge) Scenario.old_ledger "/w/a.js" 100000 eq_refl)).
    apply Nat.ltb_lt. vm_compute. reflexivity.
  - apply ((proj2 debounce_purge) Scenario.old_ledger "/w/a.ts" 100000 eq_refl).
    discriminate.
Defined.

(** C7 counterexample.  The [lastCheckedFiles] ledger of extension.ts
    accepts a.ts at time 100000 with 102 entries, yet the entry "A" last
    seen at time 1, older than ten times its 2000 ms TTL, remains. *)
Lemma ts_ledger_keeps_stale_entries :
  (TsRun.lastCheckedFiles_call Scenario.old_ledger "/w/a.ts" 100000).1 = true /\
  (100 <? size (TsRun.lastCheckedFiles_call Scenario.old_ledger "/w/a.ts" 100000).2)%nat = true /\
  (TsRun.lastCheckedFiles_call Scenario.old_ledger "/w/a.ts" 100000).2 !! "A" = Some 1 /\
  10 * TsRun.DEBOUNCE_MS < 100000 - 1.
Proof. vm_compute. repeat split. Qed.

(** ** Helper lemmas on extension.ts *)

Ltac ts_unfold :=
  unfold TsRun.openFile, TsRun.onDidCreate, TsRun.onDidChange_start,
    TsRun.onDidChangeTextDocument_start, TsRun.onDidSaveTextDocument_start,
    TsRun.onDidOpenTextDocument, TsRun.onDidChangeActiveTextEditor,
    TsRun.onDidCloseTextDocument, TsRun.handlePackageManagerActivity,
    TsRun.cooldown_fires, TsRun.deactivate, TsRun.mark_opened, TsRun.set_modtime,
    TsRun.with_running in *.

Ltac fin := simpl; repeat split; solve [done | congruence | set_solver].

(** [openFile] either leaves the state alone or marks the path opened. *)
Lemma openFile_state h st p :
  (TsRun.openFile h st p).1 = st \/ (TsRun.openFile h st p).1 = TsRun.mark_opened st p.
Proof.
  unfold TsRun.openFile.
  destruct (TsRun.file_size h p) as [n|]; [|auto].
  destruct (_ <? n); [auto|].
  destruct (List.find _ _); [|destruct (TsRun.open_ladder h p) as [calls []]];
    repeat (case_match; simpl); auto.
Qed.

(** [openFile] does not read the suppression flag. *)
Lemma openFile_ignores_running h st p b :
  (TsRun.openFile h (TsRun.with_running st b) p).2 = (TsRun.openFile h st p).2.
Proof.
  unfold TsRun.openFile.
  destruct (TsRun.file_size h p) as [n|]; [|done].
  destruct (_ <? n); [done|].
  destruct (List.find _ _); [|destruct (TsRun.open_ladder h p) as [calls []]];
    repeat (case_match; simpl); done.
Qed.




(** Every event but the two suppression events keeps the suppression
    fields. *)
Lemma ts_step_keeps_suppression h now st ev :
  ev <> TsRun.EvIndicator -> ev <> TsRun.EvCooldownFires ->
  TsRun.isPackageManagerRunning (TsRun.ts_step h now st ev).1 = TsRun.isPackageManagerRunning st /\
  TsRun.activityStartTime (TsRun.ts_step h now st ev).1 = TsRun.activityStartTime st /\
  TsRun.packageManagerCooldown (TsRun.ts_step h now st ev).1 = TsRun.packageManagerCooldown st.
Proof.
  intros H1 H2.
  assert (Hof : forall p, TsRun.isPackageManagerRunning (TsRun.openFile h st p).1 = TsRun.isPackageManagerRunning st /\
     TsRun.activityStartTime (TsRun.openFile h st p).1 = TsRun.activityStartTime st /\
     TsRun.packageManagerCooldown (TsRun.openFile h st p).1 = TsRun.packageManagerCooldown st).
  { intros p. destruct (openFile_state h st p) as [E|E]; rewrite E; fin. }
  destruct ev; try congruence; simpl.
  - unfold TsRun.onDidCreate.
    destruct (TsRun.isPackageManagerRunning st) eqn:Er; [fin|].
    destruct (TsExt.shouldAutoOpen (TsRun.root h) p); [|fin].
    specialize (Hof p). destruct (TsRun.openFile h st p). exact Hof.
  - unfold TsRun.onDidChange_start.
    repeat (case_match; simpl); fin.
  - unfold TsRun.onDidChangeTextDocument_start, TsRun.set_modtime.
    repeat (case_match; simpl); fin.
  - unfold TsRun.onDidSaveTextDocument_start, TsRun.set_modtime.
    repeat (case_match; simpl); fin.
  - specialize (Hof p). destruct (TsRun.openFile h st p). exact Hof.
  - unfold TsRun.onDidOpenTextDocument, TsRun.set_modtime. case_match; fin.
  - fin.
  - fin.
  - fin.
Qed.

(** Every event but deactivation keeps [autoOpenedFiles] growing. *)
Lemma ts_step_auto_mono h now st ev :
  ev <> TsRun.EvDeactivate ->
  TsRun.autoOpenedFiles st ⊆ TsRun.autoOpenedFiles (TsRun.ts_step h now st ev).1.
Proof.
  intros Hev.
  assert (Hof : forall p, TsRun.autoOpenedFiles st ⊆ TsRun.autoOpenedFiles (TsRun.openFile h st p).1).
  { intros p. destruct (openFile_state h st p) as [E|E]; rewrite E; simpl; set_solver. }
  destruct ev; try congruence; simpl.
  - unfold TsRun.onDidCreate.
    destruct (TsRun.isPackageManagerRunning st) eqn:Er; [fin|].
    destruct (TsExt.shouldAutoOpen (TsRun.root h) p); [|fin].
    specialize (Hof p). destruct (TsRun.openFile h st p). exact Hof.
  - unfold TsRun.onDidChange_start. repeat (case_match; simpl); fin.
  - unfold TsRun.onDidChangeTextDocument_start, TsRun.set_modtime.
    repeat (case_match; simpl); fin.
  - unfold TsRun.onDidSaveTextDocument_start, TsRun.set_modtime.
    repeat (case_match; simpl); fin.
  - specialize (Hof p). destruct (TsRun.openFile h st p). exact Hof.
  - unfold TsRun.onDidOpenTextDocument, TsRun.set_modtime. case_match; fin.
  - fin.
  - fin.
  - fin.
  - fin.
Qed.

(** ** C4: suppression extension (extension.ts) *)

(** C4.  An early-indicator event arriving while suppression is active
    keeps it active, leaves [activityStartTime] as it was, and replaces the
    scheduled cooldown by one expiring a full [COOLDOWN] after the new
    event; no other handler touches the suppression fields; and the only
    event after which an active suppression is inactive is the firing of
    the timer still scheduled, at its expiry time. *)
Theorem suppression_extension :
  (forall st now,
     TsRun.isPackageManagerRunning st = true ->
     TsRun.isPackageManagerRunning (TsRun.handlePackageManagerActivity st now) = true /\
     TsRun.activityStartTime (TsRun.handlePackageManagerActivity st now) = TsRun.activityStartTime st /\
     TsRun.packageManagerCooldown (TsRun.handlePackageManagerActivity st now) = Some (now + TsRun.COOLDOWN)) /\
  (forall h now st ev,
     ev <> TsRun.EvIndicator -> ev <> TsRun.EvCooldownFires ->
     TsRun.isPackageManagerRunning (TsRun.ts_step h now st ev).1 = TsRun.isPackageManagerRunning st /\
     TsRun.activityStartTime (TsRun.ts_step h now st ev).1 = TsRun.activityStartTime st /\
     TsRun.packageManagerCooldown (TsRun.ts_step h now st ev).1 = TsRun.packageManagerCooldown st) /\
  (forall h now st ev,
     TsRun.ts_event_ok st now ev ->
     TsRun.isPackageManagerRunning st = true ->
     TsRun.isPackageManagerRunning (TsRun.ts_step h now st ev).1 = false ->
     ev = TsRun.EvCooldownFires /\ TsRun.packageManagerCooldown st = Some now).
Proof.
  split; [|split].
  - intros st now Hr. unfold TsRun.handlePackageManagerActivity. rewrite Hr. simpl.
    repeat split.
  - exact ts_step_keeps_suppression.
  - intros h now st ev Hok Hr Hr'.
    assert (Hgen : ev <> TsRun.EvIndicator -> ev <> TsRun.EvCooldownFires -> False).
    { intros Hi Hc. destruct (ts_step_keeps_suppression h now st ev Hi Hc) as [E _].
      congruence. }
    destruct ev; try (exfalso; apply Hgen; discriminate).
    + split; [reflexivity|exact Hok].
Qed.

(** Witness of [suppression_extension]: a lock-file event at [T], a second
    one at [T+5000] extending the cooldown to [T+35000], and the timer
    firing then. *)
Lemma suppression_extension_witness :
  let st1 := TsRun.handlePackageManagerActivity TsRun.ts_init Scenario.T in
  (TsRun.isPackageManagerRunning (TsRun.handlePackageManagerActivity st1 (Scenario.T + 5000)) = true /\
   TsRun.activityStartTime (TsRun.handlePackageManagerActivity st1 (Scenario.T + 5000)) = TsRun.activityStartTime st1 /\
   TsRun.packageManagerCooldown (TsRun.handlePackageManagerActivity st1 (Scenario.T + 5000)) =
     Some (Scenario.T + 5000 + TsRun.COOLDOWN)) /\
  (TsRun.isPackageManagerRunning (TsRun.ts_step Scenario.ts_host (Scenario.T + 100) st1 (TsRun.EvChange "/w/src/a.ts")).1 =
     TsRun.isPackageManagerRunning st1 /\
   TsRun.activityStartTime (TsRun.ts_step Scenario.ts_host (Scenario.T + 100) st1 (TsRun.EvChange "/w/src/a.ts")).1 =
     TsRun.activityStartTime st1 /\
   TsRun.packageManagerCooldown (TsRun.ts_step Scenario.ts_host (Scenario.T + 100) st1 (TsRun.EvChange "/w/src/a.ts")).1 =
     TsRun.packageManagerCooldown st1) /\
  (TsRun.EvCooldownFires = TsRun.EvCooldownFires /\
   TsRun.packageManagerCooldown (TsRun.handlePackageManagerActivity st1 (Scenario.T + 5000)) =
     Some (Scenario.T + 35000)).
Proof.
  intros st1. split; [|split].
  - apply (proj1 suppression_extension). reflexivity.
  - apply (proj1 (proj2 suppression_extension)); discriminate.
  - apply ((proj2 (proj2 suppression_extension)) Scenario.ts_host (Scenario.T + 35000)
             (TsRun.handlePackageManagerActivity st1 (Scenario.T + 5000)) TsRun.EvCooldownFires).
    + vm_compute. reflexivity.
    + reflexivity.
    + reflexivity.
Defined.

(** ** C10 and C8: visibility and [autoOpenedFiles] (extension.ts) *)

Lemma find_some_of_in {A} (f : A -> bool) (l : list A) x :
  In x l -> f x = true -> exists y, List.find f l = Some y.
Proof.
  intros Hin Hf. destruct (List.find f l) as [y|] eqn:E; [eauto|].
  pose proof (find_none f l E x Hin). congruence.
Qed.

(** [openFile] on a loaded file-scheme document that is visible opens
    nothing and marks the path. *)
Lemma openFile_visible h st p n :
  TsRun.file_size h p = Some n -> n <= 50 * (1024 * 1024) ->
  In (TsRun.mkDoc "file" p) (TsRun.textDocuments h) ->
  TsRun.isVisible h p = true ->
  TsRun.openFile h st p = (TsRun.mark_opened st p, []).
Proof.
  intros Hs Hn Hin Hv. unfold TsRun.openFile. rewrite Hs.
  replace (50 * (1024 * 1024) <? n) with false by (symmetry; apply Z.ltb_ge; lia).
  destruct (find_some_of_in
              (fun d => String.eqb (TsRun.fsPath d) p && String.eqb (TsRun.scheme d) "file")
              _ _ Hin) as [y ->].
  { simpl. rewrite !String.eqb_refl. reflexivity. }
  rewrite Hv. reflexivity.
Qed.

Lemma ts_run_auto_mono st evs :
  Forall (fun e : TsRun.TsHost * Z * TsRun.ts_event => e.2 <> TsRun.EvDeactivate) evs ->
  TsRun.autoOpenedFiles st ⊆ TsRun.autoOpenedFiles (TsRun.ts_run st evs).
Proof.
  revert st. induction evs as [|[[h now] ev] evs IH]; intros st Hall; simpl; [done|].
  inversion Hall as [|? ? Hev Hrest]; subst.
  etrans; [apply (ts_step_auto_mono h now st ev Hev)|]. apply IH, Hrest.
Qed.

(** The internal-change and save handlers skip a path of [autoOpenedFiles]. *)
Lemma handlers_skip_auto_opened h st now d :
  TsRun.fsPath d ∈ TsRun.autoOpenedFiles st ->
  (exists r, (TsRun.onDidChangeTextDocument_start h st now d).2 = TsRun.TsSkipped r) /\
  (exists r, (TsRun.onDidSaveTextDocument_start h st now d).2 = TsRun.TsSkipped r).
Proof.
  intros Hin.
  assert (Hb : bool_decide (TsRun.fsPath d ∈ TsRun.autoOpenedFiles st) = true)
    by (apply bool_decide_eq_true; exact Hin).
  unfold TsRun.onDidChangeTextDocument_start, TsRun.onDidSaveTextDocument_start.
  destruct (TsRun.isPackageManagerRunning st); [split; eexists; reflexivity|].
  destruct (String.eqb (TsRun.scheme d) "file" && TsExt.shouldAutoOpen (TsRun.root h) (TsRun.fsPath d));
    [|split; eexists; reflexivity].
  rewrite Hb, andb_false_r. split; eexists; reflexivity.
Qed.

(** C10.  When [openFile] finds its target loaded and visible it makes no
    host call but adds the path to [openedFiles] and [autoOpenedFiles];
    from then on, along any run of events without [deactivate], the path
    stays in [autoOpenedFiles] and every later internal-change or save
    event for it ends in a skip, so those handlers never call [openFile]
    for it again; [deactivate] empties both sets. *)
Theorem visible_marks_auto_opened :
  (forall h st p n,
     TsRun.file_size h p = Some n -> n <= 50 * (1024 * 1024) ->
     In (TsRun.mkDoc "file" p) (TsRun.textDocuments h) ->
     TsRun.isVisible h p = true ->
     (TsRun.openFile h st p).2 = [] /\
     p ∈ TsRun.openedFiles (TsRun.openFile h st p).1 /\
     p ∈ TsRun.autoOpenedFiles (TsRun.openFile h st p).1 /\
     forall evs,
       Forall (fun e : TsRun.TsHost * Z * TsRun.ts_event => e.2 <> TsRun.EvDeactivate) evs ->
       forall h' now d, TsRun.fsPath d = p ->
       (exists r, (TsRun.onDidChangeTextDocument_start h'
                     (TsRun.ts_run (TsRun.openFile h st p).1 evs) now d).2 = TsRun.TsSkipped r) /\
       (exists r, (TsRun.onDidSaveTextDocument_start h'
                     (TsRun.ts_run (TsRun.openFile h st p).1 evs) now d).2 = TsRun.TsSkipped r)) /\
  (forall st, TsRun.openedFiles (TsRun.deactivate st) = ∅ /\ TsRun.autoOpenedFiles (TsRun.deactivate st) = ∅).
Proof.
  split; [|intros st; split; reflexivity].
  intros h st p n Hs Hn Hin Hv.
  rewrite (openFile_visible h st p n Hs Hn Hin Hv). simpl.
  split; [reflexivity|]. split; [set_solver|]. split; [set_solver|].
  intros evs Hall h' now d Hd. apply handlers_skip_auto_opened. rewrite Hd.
  apply (ts_run_auto_mono _ evs Hall). simpl. set_solver.
Qed.

(** Witness of [visible_marks_auto_opened]: a.ts visible, then a change
    and a close event, then an internal edit and a save of a.ts. *)
Lemma visible_marks_auto_opened_witness :
  let st1 := (TsRun.openFile Scenario.ts_host_visible TsRun.ts_init "/w/src/a.ts").1 in
  let evs := [(Scenario.ts_host, Scenario.T, TsRun.EvChange "/w/src/a.ts");
              (Scenario.ts_host, Scenario.T + 10, TsRun.EvCloseDocument Scenario.a_ts)] in
  (exists r, (TsRun.onDidChangeTextDocument_start Scenario.ts_host
                (TsRun.ts_run st1 evs) (Scenario.T + 20) Scenario.a_ts).2 = TsRun.TsSkipped r) /\
  (exists r, (TsRun.onDidSaveTextDocument_start Scenario.ts_host
                (TsRun.ts_run st1 evs) (Scenario.T + 20) Scenario.a_ts).2 = TsRun.TsSkipped r).
Proof.
  intros st1 evs.
  apply (proj2 (proj2 (proj2 ((proj1 visible_marks_auto_opened)
           Scenario.ts_host_visible TsRun.ts_init "/w/src/a.ts" 100
           eq_refl ltac:(lia) ltac:(simpl; left; reflexivity) eq_refl)))).
  - repeat constructor; discriminate.
  - reflexivity.
Defined.

(** C8.  A path shown in a visible editor is never opened:
    - extension.js: [handleFileChange] checks [isFileOpenByUser] before
      its wait and stops there, so the open at the end is never reached;
    - extension.ts: when [openFile] makes its decision with a visible
      editor on the file-scheme document of the path (every visible
      document being an open text document), it makes no host call; the
      internal-change and save handlers skip a visible path before their
      wait; and [onDidCreate], which calls [openFile] at once, makes no
      host call either. *)
Theorem visible_never_opened :
  (forall autoOpen h st now p,
     JsRun.isFileOpenByUser h p = true ->
     exists r, (JsRun.handleFileChange_start autoOpen h st now p).2 = JsRun.JsSkipped r) /\
  (forall h st p,
     In (TsRun.mkDoc "file" p) (TsRun.visibleTextEditors h) ->
     (forall d, In d (TsRun.visibleTextEditors h) -> In d (TsRun.textDocuments h)) ->
     (TsRun.openFile h st p).2 = [] /\
     (forall calls, (TsRun.onDidCreate h st p).2 = TsRun.TsCalled calls -> calls = [])) /\
  (forall h st now d,
     TsRun.isVisible h (TsRun.fsPath d) = true ->
     (exists r, (TsRun.onDidChangeTextDocument_start h st now d).2 = TsRun.TsSkipped r) /\
     (exists r, (TsRun.onDidSaveTextDocument_start h st now d).2 = TsRun.TsSkipped r)).
Proof.
  split; [|split].
  - intros autoOpen h st now p Hv. unfold JsRun.handleFileChange_start.
    destruct (negb autoOpen || negb (JsExt.shouldOpenFile p)); [eexists; reflexivity|].
    destruct (JsRun.recentChecks_call _ _ _) as [[] rc]; simpl; [|eexists; reflexivity].
    rewrite Hv. eexists; reflexivity.
  - intros h st p Hvis Hincl.
    assert (Hv : TsRun.isVisible h p = true).
    { unfold TsRun.isVisible. apply existsb_exists.
      exists (TsRun.mkDoc "file" p). split; [exact Hvis|apply String.eqb_refl]. }
    assert (Hof : (TsRun.openFile h st p).2 = []).
    { unfold TsRun.openFile.
      destruct (TsRun.file_size h p) as [n|]; [|reflexivity].
      destruct (50 * (1024 * 1024) <? n) eqn:En; [reflexivity|].
      apply Z.ltb_ge in En.
      destruct (find_some_of_in
                  (fun d => String.eqb (TsRun.fsPath d) p && String.eqb (TsRun.scheme d) "file")
                  _ _ (Hincl _ Hvis)) as [y ->].
      { simpl. rewrite !String.eqb_refl. reflexivity. }
      rewrite Hv. reflexivity. }
    split; [exact Hof|].
    intros calls. unfold TsRun.onDidCreate.
    destruct (TsRun.isPackageManagerRunning st); [discriminate|].
    destruct (TsExt.shouldAutoOpen (TsRun.root h) p); [|discriminate].
    destruct (TsRun.openFile h st p) as [st' calls'] eqn:E. simpl in Hof.
    intros Hc. injection Hc as <-. exact Hof.
  - intros h st now d Hv.
    unfold TsRun.onDidChangeTextDocument_start, TsRun.onDidSaveTextDocument_start.
    destruct (TsRun.isPackageManagerRunning st); [split; eexists; reflexivity|].
    destruct (String.eqb (TsRun.scheme d) "file" && TsExt.shouldAutoOpen (TsRun.root h) (TsRun.fsPath d));
      [|split; eexists; reflexivity].
    rewrite Hv. simpl. split; eexists; reflexivity.
Qed.

(** Witness of [visible_never_opened]: a.ts shown in a visible editor. *)
Lemma visible_never_opened_witness :
  (exists r, (JsRun.handleFileChange_start true (JsRun.mkJsHost ["/w/a.js"] [("/w/a.js", 10)])
                JsRun.js_init Scenario.T "/w/a.js").2 = JsRun.JsSkipped r) /\
  ((TsRun.openFile Scenario.ts_host_visible TsRun.ts_init "/w/src/a.ts").2 = [] /\
   (forall calls, (TsRun.onDidCreate Scenario.ts_host_visible TsRun.ts_init "/w/src/a.ts").2 =
                  TsRun.TsCalled calls -> calls = [])) /\
  ((exists r, (TsRun.onDidChangeTextDocument_start Scenario.ts_host_visible TsRun.ts_init
                 Scenario.T Scenario.a_ts).2 = TsRun.TsSkipped r) /\
   (exists r, (TsRun.onDidSaveTextDocument_start Scenario.ts_host_visible TsRun.ts_init
                 Scenario.T Scenario.a_ts).2 = TsRun.TsSkipped r)).
Proof.
  split; [|split].
  - apply (proj1 visible_never_opened). reflexivity.
  - apply (proj1 (proj2 visible_never_opened)).
    + simpl. left. reflexivity.
    + intros d Hd. exact Hd.
  - apply (proj2 (proj2 visible_never_opened)). reflexivity.
Defined.

(** ** C5: the path classifiers *)

(** C5 (as amended).  [shouldAutoOpen] of extension.ts denies exactly the
    paths whose workspace-relative path contains "storage/framework/views"
    (or its backslash form) or starts with "storage/" (or "storage\"),
    has a segment that lowercases to an [EXCLUDED_DIRS] name, whose base
    name matches a [DISALLOWED_PATTERNS] entry, or whose lowercased
    extension is outside [ALLOWED_EXTENSIONS]; its final yarn.lock /
    package-lock.json test never decides anything.  [shouldOpenFile] of
    extension.js denies exactly the paths with a segment that lowercases to
    an [IGNORED_DIRS] name or whose lowercased extension is outside
    [ALLOWED_EXTS]; it has no name patterns. *)
Theorem classifier_contract :
  (forall root fsPath,
     let rel := TsExt.asRelativePath root fsPath in
     TsExt.shouldAutoOpen root fsPath =
       negb ((Str.includes "storage/framework/views" rel ||
              Str.includes "storage\framework\views" rel ||
              Str.startsWith "storage/" rel || Str.startsWith "storage\" rel) ||
             existsb (fun part => Str.mem (Str.toLowerCase part) TsExt.EXCLUDED_DIRS)
               (Str.split "/"%char rel) ||
             existsb (fun pat => TsExt.pattern_test pat (Str.basename fsPath)) TsExt.DISALLOWED_PATTERNS ||
             negb (Str.mem (Str.toLowerCase (Str.extname fsPath)) TsExt.ALLOWED_EXTENSIONS))) /\
  (forall fsPath,
     JsExt.shouldOpenFile fsPath =
       negb (JsExt.shouldIgnorePath fsPath) &&
       Str.mem (Str.toLowerCase (Str.extname fsPath)) JsExt.ALLOWED_EXTS).
Proof.
  split.
  - intros root fsPath rel. unfold TsExt.shouldAutoOpen. fold rel.
    destruct (Str.includes "storage/framework/views" rel ||
              Str.includes "storage\framework\views" rel); [reflexivity|]. cbn [orb negb].
    destruct (Str.startsWith "storage/" rel || Str.startsWith "storage\" rel); [reflexivity|]. cbn [orb negb].
    destruct (existsb _ (Str.split "/"%char rel)); [reflexivity|]. cbn [orb negb].
    destruct (existsb (fun pat => TsExt.pattern_test pat (Str.basename fsPath)) TsExt.DISALLOWED_PATTERNS)
      eqn:Ep; [reflexivity|]. cbn [orb negb].
    destruct (Str.mem (Str.toLowerCase (Str.extname fsPath)) TsExt.ALLOWED_EXTENSIONS); [|reflexivity].
    cbn [orb negb].
    destruct (String.eqb (Str.basename fsPath) "yarn.lock") eqn:Ey.
    { apply String.eqb_eq in Ey. rewrite Ey in Ep. discriminate. }
    destruct (String.eqb (Str.basename fsPath) "package-lock.json") eqn:Ek.
    { apply String.eqb_eq in Ek. rewrite Ek in Ep. discriminate. }
    reflexivity.
  - intros fsPath. unfold JsExt.shouldOpenFile.
    destruct (JsExt.shouldIgnorePath fsPath); [reflexivity|].
    cbn [negb andb]. destruct (Str.mem (Str.toLowerCase (Str.extname fsPath)) JsExt.ALLOWED_EXTS); reflexivity.
Qed.

(** C5 counterexample.  In workspace "/w", app/mystorage/framework/views/x.php
    has no excluded segment, no disallowed name and the allowed extension
    ".php", yet [shouldAutoOpen] denies it: "mystorage/framework/views"
    contains "storage/framework/views". *)
Lemma classifier_denies_storage_substring :
  let fsPath := "/w/app/mystorage/framework/views/x.php" in
  let rel := TsExt.asRelativePath "/w" fsPath in
  existsb (fun part => Str.mem (Str.toLowerCase part) TsExt.EXCLUDED_DIRS)
    (Str.split "/"%char rel) = false /\
  existsb (fun pat => TsExt.pattern_test pat (Str.basename fsPath)) TsExt.DISALLOWED_PATTERNS = false /\
  Str.mem (Str.toLowerCase (Str.extname fsPath)) TsExt.ALLOWED_EXTENSIONS = true /\
  TsExt.shouldAutoOpen "/w" fsPath = false.
Proof. vm_compute. repeat split. Qed.

(** ** C2: the order of the per-event checks *)




(** ** C3: suppression short-circuit *)

(** C3 (as amended).  Each of the four handlers, invoked while suppression
    is active, returns [SkipSuppressed] with the state unchanged.  It does
    so before any other check, whatever the path or document.  But
    [openFile] does not read the flag.  So a change or internal-edit/save
    handler that passed its checks before suppression began still opens
    the file after its wait. *)
Theorem suppression_short_circuit :
  (forall h st now p d,
     TsRun.isPackageManagerRunning st = true ->
     TsRun.onDidCreate h st p = (st, TsRun.TsSkipped TsRun.SkipSuppressed) /\
     TsRun.onDidChange_start h st now p = (st, TsRun.TsSkipped TsRun.SkipSuppressed) /\
     TsRun.onDidChangeTextDocument_start h st now d = (st, TsRun.TsSkipped TsRun.SkipSuppressed) /\
     TsRun.onDidSaveTextDocument_start h st now d = (st, TsRun.TsSkipped TsRun.SkipSuppressed)) /\
  (forall h st p,
     (TsRun.openFile h (TsRun.with_running st true) p).2 = (TsRun.openFile h (TsRun.with_running st false) p).2).
Proof.
  split.
  - intros h st now p d Hr.
    unfold TsRun.onDidCreate, TsRun.onDidChange_start, TsRun.onDidChangeTextDocument_start,
      TsRun.onDidSaveTextDocument_start.
    rewrite Hr. repeat split.
  - intros h st p. rewrite !openFile_ignores_running. reflexivity.
Qed.

(** Witness of [suppression_short_circuit]: every handler after a lock-file
    event at [T]. *)
Lemma suppression_short_circuit_witness :
  let st := TsRun.handlePackageManagerActivity TsRun.ts_init Scenario.T in
  TsRun.onDidCreate Scenario.ts_host st "/w/src/a.ts" = (st, TsRun.TsSkipped TsRun.SkipSuppressed) /\
  TsRun.onDidChange_start Scenario.ts_host st (Scenario.T + 1) "/w/src/a.ts" =
    (st, TsRun.TsSkipped TsRun.SkipSuppressed) /\
  TsRun.onDidChangeTextDocument_start Scenario.ts_host st (Scenario.T + 1) Scenario.a_ts =
    (st, TsRun.TsSkipped TsRun.SkipSuppressed) /\
  TsRun.onDidSaveTextDocument_start Scenario.ts_host st (Scenario.T + 1) Scenario.a_ts =
    (st, TsRun.TsSkipped TsRun.SkipSuppressed).
Proof.
  intros st. apply (proj1 suppression_short_circuit). reflexivity.
Defined.

(** C3 counterexample.  a.ts is saved at [T] while not visible: the save
    handler passes and waits 100 ms; a lock-file event at [T+50] turns
    suppression on; at [T+100] the resumed handler's [openFile] still runs
    the 'vscode.open' command, while suppression is active. *)
Lemma save_opens_while_suppressed :
  (TsRun.onDidSaveTextDocument_start Scenario.ts_host TsRun.ts_init Scenario.T Scenario.a_ts).2 =
    TsRun.TsWaiting 100 /\
  TsRun.isPackageManagerRunning
    (TsRun.handlePackageManagerActivity
       (TsRun.onDidSaveTextDocument_start Scenario.ts_host TsRun.ts_init Scenario.T Scenario.a_ts).1
       (Scenario.T + 50)) = true /\
  (TsRun.openFile Scenario.ts_host
     (TsRun.handlePackageManagerActivity
        (TsRun.onDidSaveTextDocument_start Scenario.ts_host TsRun.ts_init Scenario.T Scenario.a_ts).1
        (Scenario.T + 50)) "/w/src/a.ts").2 = [TsRun.ExecuteOpen "/w/src/a.ts"].
Proof. vm_compute. repeat split. Qed.

(* ================================================================== *)
(** * Further properties of the code *)

(** ** Helper lemmas *)

Lemma recent_changes_insert (m : gmap string Z) i x t :
  m !! i = None ->
  length (JsRun.recent_changes (<[i:=x]> m) t) =
  ((if (t - x <? JsRun.BATCH_DETECTION_WINDOW)%Z then 1 else 0)
   + length (JsRun.recent_changes m t))%nat.
Proof.
  intros Hi. unfold JsRun.recent_changes.
  rewrite (length_filter_perm _ _ _ (Permutation_map snd (map_to_list_insert _ _ _ Hi))).
  simpl. destruct (_ <? _); reflexivity.
Qed.

(** Removing entries that would not be counted does not change the count. *)
Lemma recent_changes_filter (P : string * Z -> Prop) `{!forall kv, Decision (P kv)}
    (m : gmap string Z) t :
  (forall k v, m !! k = Some v -> t - v < JsRun.BATCH_DETECTION_WINDOW -> P (k, v)) ->
  length (JsRun.recent_changes (filter P m) t) = length (JsRun.recent_changes m t).
Proof.
  induction m as [|i x m Hi IH] using map_ind; intros HP.
  - rewrite map_filter_empty. reflexivity.
  - assert (IH' : length (JsRun.recent_changes (filter P m) t) = length (JsRun.recent_changes m t)).
    { apply IH. intros k v Hk. apply HP. rewrite lookup_insert_ne; [exact Hk|].
      intros ->. congruence. }
    rewrite recent_changes_insert by exact Hi.
    rewrite map_filter_insert. case_decide as Hp.
    + rewrite recent_changes_insert by (apply map_lookup_filter_None; auto).
      rewrite IH'. reflexivity.
    + rewrite delete_id by exact Hi. rewrite IH'.
      destruct (t - x <? _) eqn:E; [|reflexivity].
      exfalso. apply Hp, HP; [apply lookup_insert_eq|apply Z.ltb_lt; exact E].
Qed.

Lemma length_filter_mono {A} (f g : A -> bool) (l : list A) :
  (forall x, f x = true -> g x = true) ->
  (length (List.filter f l) <= length (List.filter g l))%nat.
Proof.
  intros Hfg. induction l as [|x l IH]; simpl; [lia|].
  destruct (f x) eqn:Ef; [rewrite (Hfg x Ef); simpl; lia|].
  destruct (g x); simpl; lia.
Qed.

Lemma purge_keeps_recent limit cutoff (m : gmap string Z) k v :
  cutoff <= v -> m !! k = Some v -> JsRun.purge limit cutoff m !! k = Some v.
Proof.
  intros Hc Hk. unfold JsRun.purge. destruct (_ <? _)%nat; [|exact Hk].
  apply map_lookup_filter_Some. split; [exact Hk|exact Hc].
Qed.

(** ** extension.js *)

(** The purges of [handleFileChange] (lines 111-129) drop only entries that
    no later check would use: at any time at or after the purge, the
    debounce verdict for every path and the number of changes counted by
    [isLikelyBatchOperation] are the same with or without the purge. *)
Theorem js_purges_keep_later_verdicts :
  (forall (m : gmap string Z) limit now now' q,
     now <= now' ->
     JsRun.is_duplicate (JsRun.purge limit (now - JsRun.CHECK_CACHE_TTL * 10) m) q now' =
     JsRun.is_duplicate m q now') /\
  (forall (m : gmap string Z) limit now now',
     now <= now' ->
     length (JsRun.recent_changes (JsRun.purge limit (now - JsRun.BATCH_DETECTION_WINDOW * 2) m) now') =
     length (JsRun.recent_changes m now')).
Proof.
  split.
  - intros m limit now now' q Hle. unfold JsRun.purge.
    destruct (limit <? size m)%nat; [|reflexivity].
    unfold JsRun.is_duplicate.
    destruct (m !! q) as [v|] eqn:Hq.
    + destruct (decide (now - JsRun.CHECK_CACHE_TTL * 10 <= v)) as [Hv|Hv].
      * rewrite (proj2 (map_lookup_filter_Some _ _ _ _) (conj Hq Hv)). reflexivity.
      * rewrite (proj2 (map_lookup_filter_None _ _ _)); [|right; intros y Hy; simplify_eq; exact Hv].
        unfold JsRun.CHECK_CACHE_TTL in *.
        destruct (now' - v <? 1000) eqn:E; [apply Z.ltb_lt in E; lia|].
        rewrite andb_false_r. reflexivity.
    + rewrite (proj2 (map_lookup_filter_None _ _ _) (or_introl Hq)). reflexivity.
  - intros m limit now now' Hle. unfold JsRun.purge.
    destruct (limit <? size m)%nat; [|reflexivity].
    apply recent_changes_filter. intros k v _ H. simpl.
    unfold JsRun.BATCH_DETECTION_WINDOW in *. lia.
Qed.

(** Witness of [js_purges_keep_later_verdicts]: the 101-entry map of
    [Scenario.old_ledger], purged at time 100000, judged at 100500. *)
Lemma js_purges_keep_later_verdicts_witness :
  100000 <= 100500 /\
  JsRun.is_duplicate (JsRun.purge 100 (100000 - JsRun.CHECK_CACHE_TTL * 10) Scenario.old_ledger) "A" 100500 =
  JsRun.is_duplicate Scenario.old_ledger "A" 100500 /\
  length (JsRun.recent_changes (JsRun.purge 50 (100000 - JsRun.BATCH_DETECTION_WINDOW * 2) Scenario.old_ledger) 100500) =
  length (JsRun.recent_changes Scenario.old_ledger 100500).
Proof.
  split; [lia|split].
  - apply (proj1 js_purges_keep_later_verdicts). lia.
  - apply (proj2 js_purges_keep_later_verdicts). lia.
Defined.

(** An invocation of [handleFileChange] that passes the permission and
    duplicate checks stamps its path with [now] in both [recentChecks] and
    [recentFileChanges], also when it then skips because the user has the
    file open; the entries of other paths are kept or purged, never
    changed. *)
Theorem js_passing_event_stamps_both_maps autoOpen h st now p :
  (JsRun.handleFileChange_start autoOpen h st now p).2 = JsRun.JsWaiting \/
  (JsRun.handleFileChange_start autoOpen h st now p).2 = JsRun.JsSkipped JsRun.SkipOpenByUser ->
  let st' := (JsRun.handleFileChange_start autoOpen h st now p).1 in
  JsRun.recentChecks st' !! p = Some now /\
  JsRun.recentFileChanges st' !! p = Some now /\
  (forall q, q <> p ->
     (JsRun.recentChecks st' !! q = None \/ JsRun.recentChecks st' !! q = JsRun.recentChecks st !! q) /\
     (JsRun.recentFileChanges st' !! q = None \/
      JsRun.recentFileChanges st' !! q = JsRun.recentFileChanges st !! q)).
Proof.
  unfold JsRun.handleFileChange_start.
  destruct (negb autoOpen || negb (JsExt.shouldOpenFile p)); [intros [H|H]; discriminate|].
  unfold JsRun.recentChecks_call.
  destruct (JsRun.is_duplicate (JsRun.recentChecks st) p now); [intros [H|H]; discriminate|].
  intros _.
  assert (Hpurge : forall limit cutoff (m : gmap string Z) q,
             q <> p -> JsRun.purge limit cutoff (<[p:=now]> m) !! q = None \/
                       JsRun.purge limit cutoff (<[p:=now]> m) !! q = m !! q).
  { intros limit cutoff m q Hq.
    destruct (JsRun.purge limit cutoff (<[p:=now]> m) !! q) as [v|] eqn:E; [|left; reflexivity].
    right. apply purge_lookup_Some in E. rewrite lookup_insert_ne in E by congruence.
    congruence. }
  destruct (JsRun.isFileOpenByUser h p); simpl; (split; [|split]);
    [ apply purge_keeps_recent; [unfold JsRun.CHECK_CACHE_TTL; lia|apply lookup_insert_eq]
    | apply purge_keeps_recent; [unfold JsRun.BATCH_DETECTION_WINDOW; lia|apply lookup_insert_eq]
    | intros q Hq; split; apply Hpurge; exact Hq
    | apply purge_keeps_recent; [unfold JsRun.CHECK_CACHE_TTL; lia|apply lookup_insert_eq]
    | apply purge_keeps_recent; [unfold JsRun.BATCH_DETECTION_WINDOW; lia|apply lookup_insert_eq]
    | intros q Hq; split; apply Hpurge; exact Hq ].
Qed.

(** Witness of [js_passing_event_stamps_both_maps]: the first change of a
    burst, a.js at [T]. *)
Lemma js_passing_event_stamps_both_maps_witness :
  JsRun.recentChecks Scenario.burst1.1 !! "/w/a.js" = Some Scenario.T /\
  JsRun.recentFileChanges Scenario.burst1.1 !! "/w/a.js" = Some Scenario.T.
Proof.
  destruct (js_passing_event_stamps_both_maps true Scenario.js_host JsRun.js_init Scenario.T "/w/a.js")
    as [H1 [H2 _]].
  - left. vm_compute. reflexivity.
  - split; [exact H1|exact H2].
Defined.

(** With no further change recorded, the batch verdict can only turn from
    true to false as time passes; and it needs at least three distinct
    paths in [recentFileChanges]. *)
Theorem js_batch_verdict_antitone :
  (forall st t t', t <= t' ->
     JsRun.isLikelyBatchOperation st t' = true -> JsRun.isLikelyBatchOperation st t = true) /\
  (forall st t, JsRun.isLikelyBatchOperation st t = true ->
     (3 <= size (JsRun.recentFileChanges st))%nat).
Proof.
  split.
  - intros st t t' Hle. unfold JsRun.isLikelyBatchOperation.
    rewrite !Nat.leb_le. intros H. etrans; [exact H|].
    apply length_filter_mono. intros ts Hts. apply Z.ltb_lt in Hts. apply Z.ltb_lt. lia.
  - intros st t. unfold JsRun.isLikelyBatchOperation. rewrite Nat.leb_le. intros H.
    etrans; [exact H|apply recent_changes_size].
Qed.

(** Witness of [js_batch_verdict_antitone]: after the burst of
    [Scenario.burst3], a batch at [T+250] and so at [T+200]. *)
Lemma js_batch_verdict_antitone_witness :
  JsRun.isLikelyBatchOperation Scenario.burst3.1 (Scenario.T + 200) = true /\
  (3 <= size (JsRun.recentFileChanges Scenario.burst3.1))%nat.
Proof.
  split.
  - apply ((proj1 js_batch_verdict_antitone) Scenario.burst3.1 (Scenario.T + 200) (Scenario.T + 250)).
    + lia.
    + vm_compute. reflexivity.
  - apply ((proj2 js_batch_verdict_antitone) Scenario.burst3.1 (Scenario.T + 250)).
    vm_compute. reflexivity.
Defined.

(** ** src/extension.ts: [openFile] *)


(** [openFile] on a small existing file whose file-scheme document is
    loaded but not visible (lines 405-441) adds the path to
    [openedFiles] and [autoOpenedFiles] before calling
    [showTextDocument], so the path is marked even when that call and the
    'vscode.open' fallback both fail.  When no file-scheme document of the
    path is loaded, the path is marked exactly when a call of the ladder
    succeeded. *)
Theorem openFile_marking :
  (forall h st p n,
     TsRun.file_size h p = Some n -> n <= 50 * (1024 * 1024) ->
     In (TsRun.mkDoc "file" p) (TsRun.textDocuments h) ->
     TsRun.isVisible h p = false ->
     TsRun.openFile h st p =
       (TsRun.mark_opened st p,
        if TsRun.ok h (TsRun.ShowTextDocumentDoc p) then [TsRun.ShowTextDocumentDoc p]
        else [TsRun.ShowTextDocumentDoc p; TsRun.ExecuteOpen p])) /\
  (forall h st p n,
     TsRun.file_size h p = Some n -> n <= 50 * (1024 * 1024) ->
     existsb (fun d => String.eqb (TsRun.fsPath d) p && String.eqb (TsRun.scheme d) "file")
       (TsRun.textDocuments h) = false ->
     TsRun.openFile h st p =
       (if (TsRun.open_ladder h p).2 then TsRun.mark_opened st p else st,
        (TsRun.open_ladder h p).1)).
Proof.
  split.
  - intros h st p n Hs Hn Hin Hv. unfold TsRun.openFile. rewrite Hs.
    replace (50 * (1024 * 1024) <? n) with false by (symmetry; apply Z.ltb_ge; lia).
    destruct (find_some_of_in
                (fun d => String.eqb (TsRun.fsPath d) p && String.eqb (TsRun.scheme d) "file")
                _ _ Hin) as [y ->].
    { simpl. rewrite !String.eqb_refl. reflexivity. }
    rewrite Hv. destruct (TsRun.ok h _); reflexivity.
  - intros h st p n Hs Hn Hno. unfold TsRun.openFile. rewrite Hs.
    replace (50 * (1024 * 1024) <? n) with false by (symmetry; apply Z.ltb_ge; lia).
    destruct (List.find _ _) as [y|] eqn:Ef.
    + exfalso. apply find_some in Ef. destruct Ef as [Hy Hf].
      assert (existsb (fun d => String.eqb (TsRun.fsPath d) p && String.eqb (TsRun.scheme d) "file")
                (TsRun.textDocuments h) = true) by (apply existsb_exists; eauto).
      congruence.
    + destruct (TsRun.open_ladder h p) as [calls []]; reflexivity.
Qed.

(** Witness of [openFile_marking]: src/a.ts loaded and hidden on a host
    where every call throws, and src/a.ts not loaded on [Scenario.ts_host]. *)
Lemma openFile_marking_witness :
  let h := TsRun.mkTsHost "/w" [] [Scenario.a_ts] [("/w/src/a.ts", 100)] (fun _ => Some "failed") in
  TsRun.openFile h TsRun.ts_init "/w/src/a.ts" =
    (TsRun.mark_opened TsRun.ts_init "/w/src/a.ts",
     [TsRun.ShowTextDocumentDoc "/w/src/a.ts"; TsRun.ExecuteOpen "/w/src/a.ts"]) /\
  TsRun.openFile Scenario.ts_host TsRun.ts_init "/w/src/a.ts" =
    (TsRun.mark_opened TsRun.ts_init "/w/src/a.ts", [TsRun.ExecuteOpen "/w/src/a.ts"]).
Proof.
  intros h. split.
  - apply ((proj1 openFile_marking) h TsRun.ts_init "/w/src/a.ts" 100).
    + reflexivity.
    + lia.
    + simpl. left. reflexivity.
    + reflexivity.
  - apply ((proj2 openFile_marking) Scenario.ts_host TsRun.ts_init "/w/src/a.ts" 100).
    + reflexivity.
    + lia.
    + reflexivity.
Defined.

(** [openFile] never changes anything but the membership of its own path
    in [openedFiles] and [autoOpenedFiles]: the other paths' membership
    and all other fields are kept; and it adds its path to both sets or
    to neither. *)
Theorem openFile_frame h st p :
  let st' := (TsRun.openFile h st p).1 in
  (forall q, q <> p ->
     (q ∈ TsRun.openedFiles st' <-> q ∈ TsRun.openedFiles st) /\
     (q ∈ TsRun.autoOpenedFiles st' <-> q ∈ TsRun.autoOpenedFiles st)) /\
  TsRun.isPackageManagerRunning st' = TsRun.isPackageManagerRunning st /\
  TsRun.activityStartTime st' = TsRun.activityStartTime st /\
  TsRun.packageManagerCooldown st' = TsRun.packageManagerCooldown st /\
  TsRun.lastCheckedFiles st' = TsRun.lastCheckedFiles st /\
  TsRun.documentModificationTimes st' = TsRun.documentModificationTimes st /\
  (TsRun.openedFiles st' = TsRun.openedFiles st /\ TsRun.autoOpenedFiles st' = TsRun.autoOpenedFiles st \/
   TsRun.openedFiles st' = {[p]} ∪ TsRun.openedFiles st /\
   TsRun.autoOpenedFiles st' = {[p]} ∪ TsRun.autoOpenedFiles st).
Proof.
  cbv zeta. destruct (openFile_state h st p) as [E|E]; rewrite E.
  - repeat split; auto.
  - unfold TsRun.mark_opened; simpl. repeat split; try set_solver; auto.
Qed.

(** Witness of [openFile_frame]: opening src/a.ts keeps another path out. *)
Lemma openFile_frame_witness :
  ("/w/src/b.ts" ∈ TsRun.openedFiles (TsRun.openFile Scenario.ts_host TsRun.ts_init "/w/src/a.ts").1 <->
   "/w/src/b.ts" ∈ TsRun.openedFiles TsRun.ts_init).
Proof.
  refine (proj1 (proj1 (openFile_frame Scenario.ts_host TsRun.ts_init "/w/src/a.ts") "/w/src/b.ts" _)).
  discriminate.
Defined.

(** ** src/extension.ts: which state the checks read *)

Lemma openFile_read_fields h st1 st2 p :
  TsRun.same_read_fields st1 st2 ->
  (TsRun.openFile h st1 p).2 = (TsRun.openFile h st2 p).2 /\
  TsRun.same_read_fields (TsRun.openFile h st1 p).1 (TsRun.openFile h st2 p).1.
Proof.
  intros Hs. unfold TsRun.openFile.
  destruct (TsRun.file_size h p) as [n|]; [|split; [reflexivity|exact Hs]].
  destruct (_ <? n); [split; [reflexivity|exact Hs]|].
  destruct Hs as (Hr & Hc & Hl & Ha).
  destruct (List.find _ _);
    [destruct (TsRun.isVisible h p); [|destruct (TsRun.ok h _)]
    |destruct (TsRun.open_ladder h p) as [calls []]];
    simpl; (split; [reflexivity|]); unfold TsRun.same_read_fields; simpl;
    rewrite ?Hr, ?Hc, ?Hl, ?Ha; repeat split.
Qed.

Lemma ts_step_read_fields h now st1 st2 ev :
  TsRun.same_read_fields st1 st2 ->
  (TsRun.ts_step h now st1 ev).2 = (TsRun.ts_step h now st2 ev).2 /\
  TsRun.same_read_fields (TsRun.ts_step h now st1 ev).1 (TsRun.ts_step h now st2 ev).1.
Proof.
  intros Hs.
  destruct ev as [p|p|d|d|p|d|d|d| | | ]; simpl.
  - unfold TsRun.onDidCreate. pose proof Hs as [Hr _]. rewrite Hr.
    destruct (TsRun.isPackageManagerRunning st2); [split; [reflexivity|exact Hs]|].
    destruct (TsExt.shouldAutoOpen (TsRun.root h) p); [|split; [reflexivity|exact Hs]].
    destruct (openFile_read_fields h st1 st2 p Hs) as [E1 E2].
    destruct (TsRun.openFile h st1 p), (TsRun.openFile h st2 p). simpl in *. subst.
    split; [reflexivity|exact E2].
  - destruct st1, st2; unfold TsRun.same_read_fields in *; simpl in *.
    destruct Hs as (-> & -> & -> & ->). unfold TsRun.onDidChange_start.
    repeat (case_match; simpl in *; try congruence); repeat split; reflexivity.
  - destruct st1, st2; unfold TsRun.same_read_fields in *; simpl in *.
    destruct Hs as (-> & -> & -> & ->).
    unfold TsRun.onDidChangeTextDocument_start, TsRun.set_modtime.
    repeat (case_match; simpl in *; try congruence); repeat split; reflexivity.
  - destruct st1, st2; unfold TsRun.same_read_fields in *; simpl in *.
    destruct Hs as (-> & -> & -> & ->).
    unfold TsRun.onDidSaveTextDocument_start, TsRun.set_modtime.
    repeat (case_match; simpl in *; try congruence); repeat split; reflexivity.
  - destruct (openFile_read_fields h st1 st2 p Hs) as [E1 E2].
    destruct (TsRun.openFile h st1 p), (TsRun.openFile h st2 p). simpl in *. subst.
    split; [reflexivity|exact E2].
  - destruct st1, st2; unfold TsRun.same_read_fields in *; simpl in *.
    destruct Hs as (-> & -> & -> & ->).
    unfold TsRun.onDidOpenTextDocument, TsRun.set_modtime.
    repeat (case_match; simpl in *; try congruence); repeat split; reflexivity.
  - destruct st1, st2; unfold TsRun.same_read_fields in *; simpl in *.
    destruct Hs as (-> & -> & -> & ->). repeat split.
  - destruct st1, st2; unfold TsRun.same_read_fields in *; simpl in *.
    destruct Hs as (-> & -> & -> & ->). repeat split.
  - destruct st1, st2; unfold TsRun.same_read_fields in *; simpl in *.
    destruct Hs as (-> & -> & -> & ->). unfold TsRun.handlePackageManagerActivity. simpl.
    repeat split.
  - destruct st1, st2; unfold TsRun.same_read_fields in *; simpl in *.
    destruct Hs as (-> & -> & -> & ->). repeat split.
  - destruct st1, st2; unfold TsRun.same_read_fields in *; simpl in *.
    destruct Hs as (-> & -> & -> & ->). repeat split.
Qed.

(** [activityStartTime], [openedFiles] and [documentModificationTimes]
    are written but never read by a check: two states that agree on the
    suppression flag, the pending cooldown, [lastCheckedFiles] and
    [autoOpenedFiles] give every event sequence the same outcomes (the
    same skips, waits and host calls). *)
Theorem ts_unread_fields st1 st2 evs :
  TsRun.same_read_fields st1 st2 -> TsRun.ts_trace st1 evs = TsRun.ts_trace st2 evs.
Proof.
  revert st1 st2. induction evs as [|[[h now] ev] evs IH]; intros st1 st2 Hs; simpl; [done|].
  destruct (ts_step_read_fields h now st1 st2 ev Hs) as [E Hs'].
  rewrite E. f_equal. apply IH, Hs'.
Qed.

(** Witness of [ts_unread_fields]: a state that has opened documents and
    an activity start time behaves like the initial one on a save of
    src/a.ts and its resumption. *)
Lemma ts_unread_fields_witness :
  TsRun.ts_trace (TsRun.mkTsState false 42 None ∅ {[ "/w/src/a.ts" ]} ∅ {[ "/w/src/a.ts" := 7 ]})
    [(Scenario.ts_host, Scenario.T, TsRun.EvSave Scenario.a_ts);
     (Scenario.ts_host, Scenario.T + 100, TsRun.EvResume "/w/src/a.ts")] =
  TsRun.ts_trace TsRun.ts_init
    [(Scenario.ts_host, Scenario.T, TsRun.EvSave Scenario.a_ts);
     (Scenario.ts_host, Scenario.T + 100, TsRun.EvResume "/w/src/a.ts")].
Proof.
  apply ts_unread_fields. repeat split.
Defined.

(** Only the internal-change and save handlers read [autoOpenedFiles]:
    the file-creation handler, the file-change handler and [openFile]
    behave the same whatever it holds, so a file already auto-opened is
    opened again when it is re-created or changed on disk. *)
Theorem auto_opened_not_read_by_watchers h now st s p :
  (TsRun.onDidCreate h (TsRun.with_autoOpened st s) p).2 = (TsRun.onDidCreate h st p).2 /\
  (TsRun.onDidChange_start h (TsRun.with_autoOpened st s) now p).2 =
    (TsRun.onDidChange_start h st now p).2 /\
  (TsRun.openFile h (TsRun.with_autoOpened st s) p).2 = (TsRun.openFile h st p).2.
Proof.
  assert (Hof : forall st, (TsRun.openFile h (TsRun.with_autoOpened st s) p).2 = (TsRun.openFile h st p).2).
  { intros st0. unfold TsRun.openFile.
    destruct (TsRun.file_size h p) as [n|]; [|done].
    destruct (_ <? n); [done|].
    destruct (List.find _ _); [|destruct (TsRun.open_ladder h p) as [calls []]];
      repeat (case_match; simpl); done. }
  split; [|split; [|apply Hof]].
  - unfold TsRun.onDidCreate. simpl.
    destruct (TsRun.isPackageManagerRunning st); [done|].
    destruct (TsExt.shouldAutoOpen (TsRun.root h) p); [|done].
    specialize (Hof st).
    destruct (TsRun.openFile h (TsRun.with_autoOpened st s) p), (TsRun.openFile h st p).
    simpl in *. congruence.
  - unfold TsRun.onDidChange_start. simpl. repeat (case_match; simpl); done.
Qed.

(** ** The earlier copy (extension.js, lines 193-584) *)

Lemma existsb_impl {A} (f g : A -> bool) (l : list A) :
  (forall x, f x = true -> g x = true) -> existsb g l = false -> existsb f l = false.
Proof.
  intros Hfg. induction l as [|x l IH]; simpl; [done|].
  rewrite !orb_false_iff. intros [Hg Hl]. split; [|auto].
  destruct (f x) eqn:E; [rewrite (Hfg x E) in Hg; discriminate|reflexivity].
Qed.

(** Every path the later [shouldAutoOpen] (src/extension.ts) accepts is
    accepted by the earlier copy, and every external change the later
    [onDidChange] handler lets through (it then waits 200 ms) is let
    through by the earlier one as well, which records the same debounce
    map: the later version only adds reasons to skip. *)
Theorem later_version_refines_earlier :
  (forall root p, TsExt.shouldAutoOpen root p = true -> TsV1.shouldAutoOpen root p = true) /\
  (forall h st now p,
     (TsRun.onDidChange_start h st now p).2 = TsRun.TsWaiting 200 ->
     TsV1.onDidChange_start h (TsRun.lastCheckedFiles st) now p =
       (TsRun.lastCheckedFiles (TsRun.onDidChange_start h st now p).1, TsRun.TsWaiting 200)).
Proof.
  assert (Hcls : forall root p, TsExt.shouldAutoOpen root p = true -> TsV1.shouldAutoOpen root p = true).
  { intros root p. unfold TsExt.shouldAutoOpen, TsV1.shouldAutoOpen.
    destruct (_ || _); [discriminate|].
    destruct (_ || _); [discriminate|].
    destruct (existsb (fun part => Str.mem (Str.toLowerCase part) TsExt.EXCLUDED_DIRS) _) eqn:E;
      [discriminate|].
    assert (Hsub : forall x, Str.mem (Str.toLowerCase x) TsV1.EXCLUDED_DIRS = true ->
                             Str.mem (Str.toLowerCase x) TsExt.EXCLUDED_DIRS = true).
    { intros x. unfold Str.mem.
      change TsExt.EXCLUDED_DIRS with (TsV1.EXCLUDED_DIRS ++ ["storage"; "bootstrap"]).
      rewrite existsb_app. intros ->. reflexivity. }
    rewrite (existsb_impl _ _ _ Hsub E). exact id. }
  split; [exact Hcls|].
  intros h st now p. unfold TsRun.onDidChange_start, TsV1.onDidChange_start.
  destruct (TsRun.isPackageManagerRunning st); [discriminate|].
  destruct (_ || _); [discriminate|].
  destruct (TsExt.shouldAutoOpen (TsRun.root h) p) eqn:Es; [|discriminate].
  rewrite (Hcls _ _ Es).
  unfold TsRun.lastCheckedFiles_call, TsV1.lastCheckedFiles_call.
  destruct (now - _ <? TsRun.DEBOUNCE_MS) eqn:Ed; [discriminate|].
  unfold TsRun.DEBOUNCE_MS in Ed. apply Z.ltb_ge in Ed.
  replace (now - _ <? 1000) with false by (symmetry; apply Z.ltb_ge; lia).
  intros _. reflexivity.
Qed.

(** Witness of [later_version_refines_earlier]: src/a.ts changed at [T]. *)
Lemma later_version_refines_earlier_witness :
  TsV1.shouldAutoOpen "/w" "/w/src/a.ts" = true /\
  TsV1.onDidChange_start Scenario.ts_host (TsRun.lastCheckedFiles TsRun.ts_init) Scenario.T "/w/src/a.ts" =
    (TsRun.lastCheckedFiles (TsRun.onDidChange_start Scenario.ts_host TsRun.ts_init Scenario.T "/w/src/a.ts").1,
     TsRun.TsWaiting 200).
Proof.
  split.
  - apply (proj1 later_version_refines_earlier). vm_compute. reflexivity.
  - apply (proj2 later_version_refines_earlier). vm_compute. reflexivity.
Defined.

(** ** The path classifiers: strings *)

Lemma list_ascii_app (s1 s2 : string) :
  list_ascii_of_string (s1 ++ s2)%string = list_ascii_of_string s1 ++ list_ascii_of_string s2.
Proof. induction s1 as [|c s1 IH]; [reflexivity|simpl; rewrite IH; reflexivity]. Qed.

Lemma toLowerCase_list s :
  list_ascii_of_string (Str.toLowerCase s) = map Str.lower_char (list_ascii_of_string s).
Proof. induction s as [|c s IH]; simpl; congruence. Qed.

Lemma string_eq_list (s t : string) :
  list_ascii_of_string s = list_ascii_of_string t -> s = t.
Proof.
  intros H. rewrite <- (string_of_list_ascii_of_string s), <- (string_of_list_ascii_of_string t), H.
  reflexivity.
Qed.

Lemma endsWith_spec s t :
  Str.endsWith s t = true <-> exists u, list_ascii_of_string t = u ++ list_ascii_of_string s.
Proof.
  split.
  - induction t as [|c t IH]; simpl.
    + rewrite orb_false_r. intros H. apply String.eqb_eq in H. subst. exists []. reflexivity.
    + intros H. apply orb_true_iff in H as [H|H].
      * apply String.eqb_eq in H. subst s. exists []. reflexivity.
      * destruct (IH H) as [u Hu]. exists (c :: u). simpl. rewrite Hu. reflexivity.
  - intros [u Hu]. revert t Hu. induction u as [|c u IH]; intros t Hu.
    + simpl in Hu. apply string_eq_list in Hu. subst.
      destruct s as [|a s]; [reflexivity|].
      simpl. rewrite Ascii.eqb_refl, String.eqb_refl. reflexivity.
    + destruct t as [|c' t]; [discriminate|]. simpl in Hu. injection Hu as -> Hu.
      simpl. rewrite (IH t Hu). apply orb_true_r.
Qed.

Lemma take_until_slash_prefix (rs : list ascii) :
  exists rest, rs = Str.take_until_slash rs ++ rest.
Proof.
  induction rs as [|c rs [rest IH]]; simpl; [exists []; reflexivity|].
  destruct (Ascii.eqb c "/"); [exists (c :: rs); reflexivity|].
  exists rest. simpl. rewrite <- IH. reflexivity.
Qed.

Lemma break_at_dot_spec rs e pre :
  Str.break_at_dot rs = Some (e, pre) -> rs = e ++ "."%char :: pre.
Proof.
  revert e pre. induction rs as [|c rs IH]; intros e pre; simpl; [discriminate|].
  destruct (Ascii.eqb c ".") eqn:Ec.
  - intros H. injection H as <- <-. apply Ascii.eqb_eq in Ec. subst. reflexivity.
  - destruct (Str.break_at_dot rs) as [[e' pre']|] eqn:Eb; [|discriminate].
    intros H. injection H as <- <-. rewrite (IH e' pre' eq_refl). reflexivity.
Qed.

(** For a path without a trailing separator, a non-empty [path.extname]
    is a suffix of the path. *)
Lemma extname_suffix p :
  Str.extname p <> EmptyString ->
  Str.endsWith "/" p = false ->
  exists u, list_ascii_of_string p = u ++ list_ascii_of_string (Str.extname p).
Proof.
  intros Hne Hslash.
  assert (Hb : exists u, list_ascii_of_string p = u ++ list_ascii_of_string (Str.basename p)).
  { unfold Str.basename. rewrite list_ascii_of_string_of_list_ascii.
    assert (Hd : Str.drop_slashes (rev (list_ascii_of_string p)) = rev (list_ascii_of_string p)).
    { destruct (rev (list_ascii_of_string p)) as [|c rs] eqn:Er; [reflexivity|].
      simpl. destruct (Ascii.eqb c "/") eqn:Ec; [|reflexivity].
      exfalso. apply Ascii.eqb_eq in Ec. subst c.
      assert (Str.endsWith "/" p = true) as Hc; [|congruence].
      apply endsWith_spec. exists (rev rs).
      rewrite <- (rev_involutive (list_ascii_of_string p)), Er. reflexivity. }
    rewrite Hd. destruct (take_until_slash_prefix (rev (list_ascii_of_string p))) as [rest Hr].
    exists (rev rest). rewrite <- rev_app_distr, <- Hr, rev_involutive. reflexivity. }
  destruct Hb as [u1 Hu1].
  unfold Str.extname in *.
  destruct (Str.break_at_dot (rev (list_ascii_of_string (Str.basename p)))) as [[e pre]|] eqn:Ebd;
    [|congruence].
  destruct pre as [|c pre]; [congruence|].
  destruct (String.eqb (Str.basename p) ".."); [congruence|].
  apply break_at_dot_spec in Ebd.
  exists (u1 ++ rev (c :: pre)).
  rewrite Hu1. simpl (list_ascii_of_string (String _ _)).
  rewrite list_ascii_of_string_of_list_ascii.
  rewrite <- (rev_involutive (list_ascii_of_string (Str.basename p))), Ebd.
  rewrite rev_app_distr. simpl. rewrite <- !app_assoc. reflexivity.
Qed.

Lemma append_cons c (s t : string) : (String c s ++ t)%string = String c (s ++ t)%string.
Proof. reflexivity. Qed.

Lemma string_app_assoc (s t u : string) : ((s ++ t) ++ u)%string = (s ++ (t ++ u))%string.
Proof. induction s as [|c s IH]; [reflexivity|rewrite !append_cons, IH; reflexivity]. Qed.

Lemma string_length_app (s t : string) :
  String.length (s ++ t)%string = (String.length s + String.length t)%nat.
Proof. induction s as [|c s IH]; [reflexivity|rewrite append_cons; simpl; rewrite IH; reflexivity]. Qed.

Lemma prefix_app (s t : string) : String.prefix s (s ++ t)%string = true.
Proof.
  induction s as [|c s IH]; [destruct t; reflexivity|].
  rewrite append_cons. simpl. destruct (ascii_dec c c); [exact IH|congruence].
Qed.

Lemma substring_all (t : string) : String.substring 0 (String.length t) t = t.
Proof. induction t as [|c t IH]; [reflexivity|simpl; rewrite IH; reflexivity]. Qed.

Lemma substring_app (s t : string) :
  String.substring (String.length s) (String.length t) (s ++ t)%string = t.
Proof.
  induction s as [|c s IH]; [apply substring_all|].
  rewrite append_cons. simpl. exact IH.
Qed.

(** [asRelativePath] of a path below the workspace folder. *)
Lemma asRelativePath_under root rel :
  TsExt.asRelativePath root (root ++ "/" ++ rel)%string = rel.
Proof.
  unfold TsExt.asRelativePath.
  rewrite <- string_app_assoc, prefix_app, (string_length_app (root ++ "/")%string rel).
  replace (String.length (root ++ "/")%string + String.length rel - String.length (root ++ "/")%string)%nat
    with (String.length rel) by lia.
  apply substring_app.
Qed.

Lemma split_acc_noslash sep l cur r :
  forallb (fun c => negb (Ascii.eqb c sep)) l = true ->
  Str.split_acc sep cur (l ++ r) = Str.split_acc sep (rev l ++ cur) r.
Proof.
  revert cur. induction l as [|c l IH]; intros cur H; [reflexivity|].
  simpl in H. apply andb_true_iff in H as [Hc Hl]. apply negb_true_iff in Hc.
  simpl. rewrite Hc, IH by exact Hl. rewrite <- app_assoc. reflexivity.
Qed.

Lemma split_acc_after_sep sep pre cur r x :
  In x (Str.split_acc sep [] r) -> In x (Str.split_acc sep cur (pre ++ sep :: r)).
Proof.
  revert cur. induction pre as [|c pre IH]; intros cur Hx; simpl.
  - rewrite Ascii.eqb_refl. right. exact Hx.
  - destruct (Ascii.eqb c sep); [right; apply IH, Hx|apply IH, Hx].
Qed.

Lemma split_segment sep seg r :
  forallb (fun c => negb (Ascii.eqb c sep)) (list_ascii_of_string seg) = true ->
  In seg (Str.split_acc sep [] (list_ascii_of_string seg ++ sep :: r)).
Proof.
  intros H. rewrite split_acc_noslash by exact H. simpl. rewrite Ascii.eqb_refl.
  left. rewrite app_nil_r, rev_involutive, string_of_list_ascii_of_string. reflexivity.
Qed.

Lemma mem_In s l : Str.mem s l = true -> In s l.
Proof.
  unfold Str.mem. intros H. apply existsb_exists in H as [x [Hx Heq]].
  apply String.eqb_eq in Heq. subst. exact Hx.
Qed.

(** A directory whose name, lowercased, is in the ignore list excludes
    every path below it, at any depth.  extension.js tests every segment
    of the absolute path, so a directory above the workspace folder
    counts too; extension.ts tests the segments of the path relative to
    the workspace folder. *)
Theorem excluded_dir_at_any_depth :
  (forall a dir b,
     forallb (fun c => negb (Ascii.eqb c "/")) (list_ascii_of_string dir) = true ->
     Str.mem (Str.toLowerCase dir) JsExt.IGNORED_DIRS = true ->
     JsExt.shouldOpenFile (a ++ "/" ++ dir ++ "/" ++ b)%string = false) /\
  (forall root a dir b,
     forallb (fun c => negb (Ascii.eqb c "/")) (list_ascii_of_string dir) = true ->
     Str.mem (Str.toLowerCase dir) TsExt.EXCLUDED_DIRS = true ->
     TsExt.shouldAutoOpen root (root ++ "/" ++ dir ++ "/" ++ b)%string = false /\
     TsExt.shouldAutoOpen root (root ++ "/" ++ a ++ "/" ++ dir ++ "/" ++ b)%string = false).
Proof.
  split.
  - intros a dir b Hd Hm. unfold JsExt.shouldOpenFile.
    replace (JsExt.shouldIgnorePath _) with true; [reflexivity|]. symmetry.
    unfold JsExt.shouldIgnorePath, Str.split. apply existsb_exists. exists dir. split; [|exact Hm].
    rewrite !list_ascii_app. change (list_ascii_of_string "/") with ["/"%char]. simpl app.
    apply split_acc_after_sep, split_segment, Hd.
  - intros root a dir b Hd Hm.
    assert (Hcls : forall rel, In dir (Str.split "/" rel) ->
                     TsExt.shouldAutoOpen root (root ++ "/" ++ rel)%string = false).
    { intros rel Hin. unfold TsExt.shouldAutoOpen. cbv zeta. rewrite asRelativePath_under.
      destruct (Str.includes "storage/framework/views" rel || _); [reflexivity|].
      destruct (Str.startsWith "storage/" rel || _); [reflexivity|].
      replace (existsb _ (Str.split "/" rel)) with true; [reflexivity|].
      symmetry. apply existsb_exists. exists dir. split; assumption. }
    split; apply Hcls; unfold Str.split; rewrite !list_ascii_app;
      change (list_ascii_of_string "/") with ["/"%char]; simpl app.
    + apply split_segment, Hd.
    + apply split_acc_after_sep, split_segment, Hd.
Qed.

(** Witness of [excluded_dir_at_any_depth]: a file below a 'Build'
    directory above the workspace (extension.js), and files below
    'Vendor' (extension.ts). *)
Lemma excluded_dir_at_any_depth_witness :
  JsExt.shouldOpenFile "/home/u/Build/proj/src/a.js" = false /\
  TsExt.shouldAutoOpen "/w" "/w/Vendor/pkg/a.php" = false /\
  TsExt.shouldAutoOpen "/w" "/w/src/Vendor/a.php" = false.
Proof.
  split; [|split].
  - apply ((proj1 excluded_dir_at_any_depth) "/home/u" "Build" "proj/src/a.js"); reflexivity.
  - apply ((proj2 excluded_dir_at_any_depth) "/w" "src" "Vendor" "pkg/a.php"); reflexivity.
  - apply ((proj2 excluded_dir_at_any_depth) "/w" "src" "Vendor" "a.php"); reflexivity.
Defined.

Lemma lower_extname_suffix p :
  Str.endsWith "/" p = false -> Str.extname p <> EmptyString ->
  Str.endsWith (Str.toLowerCase (Str.extname p)) (Str.toLowerCase p) = true.
Proof.
  intros Hs Hne. destruct (extname_suffix p Hne Hs) as [u Hu].
  apply endsWith_spec. exists (map Str.lower_char u).
  rewrite !toLowerCase_list, Hu, map_app. reflexivity.
Qed.

(** A path that a classifier accepts ends, after lowercasing, in one of
    the allowed extensions (for a path without a trailing separator, as
    watcher paths are). *)
Theorem accepted_paths_end_in_allowed_extension :
  (forall p, Str.endsWith "/" p = false -> JsExt.shouldOpenFile p = true ->
     exists e, In e JsExt.ALLOWED_EXTS /\ Str.endsWith e (Str.toLowerCase p) = true) /\
  (forall root p, Str.endsWith "/" p = false -> TsExt.shouldAutoOpen root p = true ->
     exists e, In e TsExt.ALLOWED_EXTENSIONS /\ Str.endsWith e (Str.toLowerCase p) = true).
Proof.
  split.
  - intros p Hs. unfold JsExt.shouldOpenFile. cbv zeta.
    destruct (JsExt.shouldIgnorePath p); [discriminate|].
    destruct (Str.mem (Str.toLowerCase (Str.extname p)) JsExt.ALLOWED_EXTS) eqn:Em; [|discriminate].
    intros _. exists (Str.toLowerCase (Str.extname p)). split; [apply mem_In; exact Em|].
    apply lower_extname_suffix; [exact Hs|].
    intros E. rewrite E in Em. vm_compute in Em. discriminate.
  - intros root p Hs. unfold TsExt.shouldAutoOpen. cbv zeta.
    destruct (_ || _); [discriminate|].
    destruct (_ || _); [discriminate|].
    destruct (existsb _ (Str.split "/" _)); [discriminate|].
    destruct (existsb _ TsExt.DISALLOWED_PATTERNS); [discriminate|].
    destruct (Str.mem (Str.toLowerCase (Str.extname p)) TsExt.ALLOWED_EXTENSIONS) eqn:Em;
      [|discriminate].
    intros _. exists (Str.toLowerCase (Str.extname p)). split; [apply mem_In; exact Em|].
    apply lower_extname_suffix; [exact Hs|].
    intros E. rewrite E in Em. vm_compute in Em. discriminate.
Qed.

(** Witness of [accepted_paths_end_in_allowed_extension]: 'A.JS' and
    'App.TS' are accepted and end in '.js' and '.ts' once lowercased. *)
Lemma accepted_paths_end_in_allowed_extension_witness :
  (exists e, In e JsExt.ALLOWED_EXTS /\ Str.endsWith e (Str.toLowerCase "/w/A.JS") = true) /\
  (exists e, In e TsExt.ALLOWED_EXTENSIONS /\ Str.endsWith e (Str.toLowerCase "/w/src/App.TS") = true).
Proof.
  split.
  - apply ((proj1 accepted_paths_end_in_allowed_extension) "/w/A.JS"); vm_compute; reflexivity.
  - apply ((proj2 accepted_paths_end_in_allowed_extension) "/w" "/w/src/App.TS"); vm_compute; reflexivity.
Defined.
